(** * Sales analysis: the CSV record parser and the aggregator

    A shallow embedding of package [analyzer] (functions [ParseCSV] and
    [AnalyzeData]) together with the properties its specification states.

    Conventions of the embedding.
    - Go's [int] is the 64-bit signed integer: values are carried in [Z] and
      every addition the source performs is wrapped by [wrap_int].
    - Go's [float64] is IEEE 754 binary64, modelled by [spec_float] with
      precision 53 and maximal exponent 1024.
    - Go's [map[string]int] is a [gmap string Z]; the order in which [range]
      visits its entries is unspecified, so it is an explicit argument.
    - The standard library ([os.Open], [csv.Reader.Read], [strconv.Atoi],
      [strconv.ParseFloat]) is outside the package: its results are inputs. *)

From Stdlib Require Import ZArith List Bool Lia Ascii String.
From Stdlib Require Import Floats.SpecFloat.
From stdpp Require Import gmap strings list fin_maps.

Local Open Scope Z_scope.

(** ** Machine integers *)

Module GoInt.

Definition int_bits : Z := 64.
Definition min_int : Z := - 2 ^ (int_bits - 1).
Definition max_int : Z := 2 ^ (int_bits - 1) - 1.

(** Two's-complement wrap-around of a mathematical integer. *)
Definition wrap_int (z : Z) : Z :=
  (z - min_int) mod 2 ^ int_bits + min_int.

(** [a + b] on [int]. *)
Definition int_add (a b : Z) : Z := wrap_int (a + b).

Definition in_int (z : Z) : Prop := min_int <= z <= max_int.

End GoInt.
Export GoInt.

(** ** Floating point *)

Module GoFloat.

Definition prec : Z := 53.
Definition emax : Z := 1024.

Definition float64 : Type := spec_float.

(** The literal [0.0]. *)
Definition f64_zero : float64 := S754_zero false.

Definition f64_add (x y : float64) : float64 := SFadd prec emax x y.
Definition f64_mul (x y : float64) : float64 := SFmul prec emax x y.

(** The conversion [float64(n)] of an [int], rounding to nearest even. *)
Definition f64_of_int (n : Z) : float64 := binary_normalize prec emax n 0 false.

(** The value [m * 2^e], rounded; used to write literals. *)
Definition f64_lit (m e : Z) : float64 := binary_normalize prec emax m e false.

Definition f64_is_nan (x : float64) : bool :=
  match x with S754_nan => true | _ => false end.

Definition f64_is_inf (x : float64) : bool :=
  match x with S754_infinity _ => true | _ => false end.

End GoFloat.
Export GoFloat.

(** ** Data model *)

Record SaleRecord : Type := mkSaleRecord {
  Date : string;
  Product : string;
  Quantity : Z;
  Price : float64
}.

Record AnalysisResult : Type := mkAnalysisResult {
  TotalTransactions : Z;
  TotalRevenue : float64;
  MostPopularProduct : string;
  MaxQuantitySoldUnits : Z
}.

(** ** The aggregator *)

Module Analyzer.

(** The value of [result] after the composite literal: the fields that the
    literal leaves out take their zero value. *)
Definition init_result (records : list SaleRecord) : AnalysisResult :=
  {| TotalTransactions := Z.of_nat (length records);
     TotalRevenue := f64_zero;
     MostPopularProduct := "";
     MaxQuantitySoldUnits := 0 |}.

(** [m[k]] for a key that may be absent. *)
Definition map_get (m : gmap string Z) (k : string) : Z :=
  default 0 (m !! k).

(** Body of the first loop, on the pair [(result, productQuantities)]. *)
Definition accumulate (st : AnalysisResult * gmap string Z) (record : SaleRecord)
  : AnalysisResult * gmap string Z :=
  let '(result, productQuantities) := st in
  ({| TotalTransactions := TotalTransactions result;
      TotalRevenue :=
        f64_add (TotalRevenue result)
                (f64_mul (f64_of_int (Quantity record)) (Price record));
      MostPopularProduct := MostPopularProduct result;
      MaxQuantitySoldUnits := MaxQuantitySoldUnits result |},
   <[Product record :=
       int_add (map_get productQuantities (Product record)) (Quantity record)]>
     productQuantities).

(** Body of the second loop, on [result]. *)
Definition select (result : AnalysisResult) (entry : string * Z) : AnalysisResult :=
  let '(product, totalQuantity) := entry in
  if MaxQuantitySoldUnits result <? totalQuantity then
    {| TotalTransactions := TotalTransactions result;
       TotalRevenue := TotalRevenue result;
       MostPopularProduct := product;
       MaxQuantitySoldUnits := totalQuantity |}
  else result.

(** State after the first loop. *)
Definition first_pass (records : list SaleRecord) : AnalysisResult * gmap string Z :=
  fold_left accumulate records (init_result records, ∅).

Definition productQuantities (records : list SaleRecord) : gmap string Z :=
  snd (first_pass records).

(** An iteration order for [range] over a map: it visits every entry once. *)
Definition range_order (range : gmap string Z → list (string * Z)) : Prop :=
  ∀ m, range m ≡ₚ map_to_list m.

(** [AnalyzeData], for the iteration order [range] of the second loop. *)
Definition AnalyzeData (range : gmap string Z → list (string * Z))
    (records : list SaleRecord) : AnalysisResult :=
  let '(result, productQuantities) := first_pass records in
  fold_left select (range productQuantities) result.

End Analyzer.
Export Analyzer.

(** ** Reading the specification of the aggregator *)

Module AnalyzerSpec.

(** The product keys that appear in the input, in input order. *)
Definition product_keys (records : list SaleRecord) : list string :=
  Product <$> records.

(** The sum, over the integers, of the quantities of the records with key [k]. *)
Fixpoint exact_sum (records : list SaleRecord) (k : string) : Z :=
  match records with
  | [] => 0
  | r :: rest => (if decide (Product r = k) then Quantity r else 0) + exact_sum rest k
  end.

(** That sum as a value of type [int]. *)
Definition summed_quantity (records : list SaleRecord) (k : string) : Z :=
  wrap_int (exact_sum records k).


(** Some product of the input has a strictly positive summed quantity. *)
Definition some_positive (records : list SaleRecord) : Prop :=
  ∃ k, k ∈ product_keys records ∧ 0 < summed_quantity records k.


(** The invariant of [AnalysisResult]: no product, no transaction and no
    quantity go together. *)
Definition empty_together (result : AnalysisResult) : Prop :=
  (MostPopularProduct result = "" ↔ TotalTransactions result = 0) ∧
  (TotalTransactions result = 0 ↔ MaxQuantitySoldUnits result = 0).

(** [result] with a new maximum and its key. *)
Definition with_maximum (result : AnalysisResult) (product : string) (totalQuantity : Z)
  : AnalysisResult :=
  {| TotalTransactions := TotalTransactions result;
     TotalRevenue := TotalRevenue result;
     MostPopularProduct := product;
     MaxQuantitySoldUnits := totalQuantity |}.

(** The revenue accumulation [acc + quantity * price] of one record. *)
Definition add_revenue (acc : float64) (record : SaleRecord) : float64 :=
  f64_add acc (f64_mul (f64_of_int (Quantity record)) (Price record)).

End AnalyzerSpec.
Export AnalyzerSpec.

(** ** The record parser *)

Module Parser.

(** Result of a call into [strconv] or [os]: a value, or the text of the error. *)
Inductive outcome (A : Type) : Type :=
| Ok (v : A)
| Err (cause : string).
Arguments Ok {A} v.
Arguments Err {A} cause.

(** What a [csv.Reader] has in store: one entry per call of [Read] that does
    not reach the end of the input, either a row or an error other than
    [io.EOF]. Once the list is used up every call reports [io.EOF]. *)
Inductive read_event : Type :=
| Row (fields : list string)
| Fail (cause : string).

(** The errors that [ParseCSV] builds with [fmt.Errorf]. *)
Inductive parse_error : Type :=
| ErrOpen (filePath : string) (cause : string)
| ErrHeader (cause : string)
| ErrLine (lineNumber : Z) (cause : string).

(** The warnings that [ParseCSV] prints. *)
Inductive warning : Type :=
| WarnFields (lineNumber : Z) (fields : Z)
| WarnQuantity (lineNumber : Z) (text : string) (cause : string)
| WarnPrice (lineNumber : Z) (text : string) (cause : string).

(** The pair that [ParseCSV] returns, and what it has printed. A [nil] slice
    is the empty list, a [nil] error is [None]. *)
Record parse_result : Type := mkParseResult {
  records_of : list SaleRecord;
  error_of : option parse_error;
  printed : list warning
}.

Section WithLibrary.

Variable os_Open : string → outcome (list read_event).
Variable Atoi : string → outcome Z.
Variable ParseFloat : string → outcome float64.

(** The body of the loop after a successful [Read]: the three checks, each
    ending the iteration with a warning, then the record. *)
Definition process_row (lineNumber : Z) (row : list string) : SaleRecord + warning :=
  if negb (Z.of_nat (length row) =? 4) then
    inr (WarnFields lineNumber (Z.of_nat (length row)))
  else
    match Atoi (nth 2 row "") with
    | Err cause => inr (WarnQuantity lineNumber (nth 2 row "") cause)
    | Ok quantity =>
        match ParseFloat (nth 3 row "") with
        | Err cause => inr (WarnPrice lineNumber (nth 3 row "") cause)
        | Ok price =>
            inl {| Date := nth 0 row "";
                   Product := nth 1 row "";
                   Quantity := quantity;
                   Price := price |}
        end
    end.

(** The loop [for lineNumber := 2; ; lineNumber++], entered with
    [lineNumber], the slice [records] and the text printed so far. *)
Fixpoint read_rows (reader : list read_event) (lineNumber : Z)
    (records : list SaleRecord) (out : list warning) : parse_result :=
  match reader with
  | [] => mkParseResult records None out
  | Fail cause :: _ => mkParseResult [] (Some (ErrLine lineNumber cause)) out
  | Row row :: reader' =>
      match process_row lineNumber row with
      | inr w => read_rows reader' (int_add lineNumber 1) records (out ++ [w])
      | inl record => read_rows reader' (int_add lineNumber 1) (records ++ [record]) out
      end
  end.

Definition ParseCSV (filePath : string) : parse_result :=
  match os_Open filePath with
  | Err cause => mkParseResult [] (Some (ErrOpen filePath cause)) []
  | Ok file =>
      match file with
      | Fail cause :: _ => mkParseResult [] (Some (ErrHeader cause)) []
      | [] => read_rows [] 2 [] []
      | Row _ :: reader => read_rows reader 2 [] []
      end
  end.

(** *** Reading the specification of the parser *)

(** The record of a row that passes the field-count check and both numeric
    checks; nothing for any other row. *)
Definition row_record (row : list string) : option SaleRecord :=
  match Atoi (nth 2 row ""), ParseFloat (nth 3 row "") with
  | Ok q, Ok p =>
      if decide (length row = 4%nat)
      then Some (mkSaleRecord (nth 0 row "") (nth 1 row "") q p)
      else None
  | _, _ => None
  end.

(** The file yields these rows and then the end of the input. *)
Definition reads_rows (filePath : string) (rows : list (list string)) : Prop :=
  os_Open filePath = Ok (Row <$> rows).

(** Some call of [Read] on the file reports an error other than [io.EOF]. *)
Definition read_failure (filePath : string) : Prop :=
  ∃ file cause, os_Open filePath = Ok file ∧ Fail cause ∈ file.

Definition open_failure (filePath : string) : Prop :=
  ∃ cause, os_Open filePath = Err cause.

End WithLibrary.

End Parser.
Export Parser.

(** ** The warnings of the parser, row by row *)

Module ParserSpec.

Section WithLibrary.

Variable Atoi : string → outcome Z.
Variable ParseFloat : string → outcome float64.

(** The warning that the iteration for [row] prints, if it prints one. *)
Definition row_warning (lineNumber : Z) (row : list string) : option warning :=
  match process_row Atoi ParseFloat lineNumber row with
  | inr w => Some w
  | inl _ => None
  end.

(** The warnings of [rows] when the first of them is read with the counter
    at [lineNumber]: the row at index [i] is line [lineNumber + i]. *)
Definition warnings_from (lineNumber : Z) (rows : list (list string)) : list warning :=
  omap id (imap (λ i row, row_warning (wrap_int (lineNumber + Z.of_nat i)) row) rows).

End WithLibrary.

End ParserSpec.
Export ParserSpec.

(** ** Ties between products *)

Module AnalyzerTies.

(** No two distinct products of the input share the largest summed quantity. *)
Definition no_tie (records : list SaleRecord) : Prop :=
  ∀ k1 k2,
    k1 ∈ product_keys records → k2 ∈ product_keys records →
    (∀ k, k ∈ product_keys records → summed_quantity records k <= summed_quantity records k1) →
    summed_quantity records k2 = summed_quantity records k1 →
    k1 = k2.

(** The empty string is a product key of the input and no product has a
    larger summed quantity. *)
Definition empty_key_leads (records : list SaleRecord) : Prop :=
  "" ∈ product_keys records ∧
  ∀ k, k ∈ product_keys records → summed_quantity records k <= summed_quantity records "".

(** Some product of the input has a strictly positive sum of quantities,
    the sum being taken over the integers. *)
Definition some_positive_exact (records : list SaleRecord) : Prop :=
  ∃ k, k ∈ product_keys records ∧ 0 < exact_sum records k.

(** The result names a product with the largest sum when some sum is
    strictly positive and keeps the initial values otherwise, the sums being
    taken over the integers. *)
Definition most_popular_exact (records : list SaleRecord) (result : AnalysisResult) : Prop :=
  (some_positive_exact records →
   0 < MaxQuantitySoldUnits result ∧
   MostPopularProduct result ∈ product_keys records ∧
   exact_sum records (MostPopularProduct result) = MaxQuantitySoldUnits result) ∧
  (¬ some_positive_exact records →
   MaxQuantitySoldUnits result = 0 ∧ MostPopularProduct result = "").

End AnalyzerTies.
Export AnalyzerTies.

(** ** The command *)

Module Main.

(** What [main] and [ParseCSV] write to the standard output, one constructor
    per format string, with the values that the verbs print. *)
Inductive output : Type :=
| Warning (w : warning)
| FilePathRequired
| Usage
| CriticalParsingError (err : parse_error)
| NoValidRecords (filePath : string)
| ReportTitle
| FileProcessed (filePath : string)
| TotalValidTransactions (n : Z)
| TotalRevenueLine (revenue : float64)
| MostPopularProductLine (product : string) (units : Z)
| ReportRule.

(** A run of the command: what it has printed on the standard output and the
    status it ends with, 1 after [os.Exit(1)], 0 when [main] returns, and the
    status that [flag.Parse] chooses when it ends the process itself. *)
Record run : Type := mkRun {
  stdout : list output;
  exit_status : Z
}.

Section WithLibrary.

Variable os_Open : string → outcome (list read_event).
Variable Atoi : string → outcome Z.
Variable ParseFloat : string → outcome float64.
Variable range : gmap string Z → list (string * Z).

(** The value of the flag [file] after [flag.Parse]: its default when the
    command line does not set it. *)
Definition flag_file (file : option string) : string :=
  default "data/sales.csv" file.

Definition report (filePath : string) (result : AnalysisResult) : list output :=
  [ReportTitle;
   FileProcessed filePath;
   TotalValidTransactions (TotalTransactions result);
   TotalRevenueLine (TotalRevenue result);
   MostPopularProductLine (MostPopularProduct result) (MaxQuantitySoldUnits result);
   ReportRule].

(** [main] once [flag.Parse] has returned, [file] being what the command
    line gives for the flag. *)
Definition main (file : option string) : run :=
  let filePath := flag_file file in
  if decide (filePath = "") then mkRun [FilePathRequired; Usage] 1
  else
    let parsed := ParseCSV os_Open Atoi ParseFloat filePath in
    let records := records_of parsed in
    match error_of parsed with
    | Some err => mkRun ((Warning <$> printed parsed) ++ [CriticalParsingError err]) 1
    | None =>
        if Z.of_nat (length records) =? 0 then
          mkRun ((Warning <$> printed parsed) ++ [NoValidRecords filePath]) 0
        else
          let result := AnalyzeData range records in
          mkRun ((Warning <$> printed parsed) ++ report filePath result) 0
    end.

(** What [flag.Parse] makes of the command line. The flag set of the command
    line exits on error: [flag.Parse] returns with the flag [file] as given,
    or it ends the process, with status 0 after the usage that [-h] or
    [-help] asks for and with status 2 on a command line that it cannot
    parse. Its messages go to the standard error. *)
Inductive command_line : Type :=
| Parsed (file : option string)
| HelpRequested
| Malformed.

(** [main] from its first statement. *)
Definition command (args : command_line) : run :=
  match args with
  | Parsed file => main file
  | HelpRequested => mkRun [] 0
  | Malformed => mkRun [] 2
  end.

End WithLibrary.

End Main.
Export Main.

(** ** The helpers of the tests *)

Module AnalyzerTest.

Definition f64_sub (x y : float64) : float64 := SFsub prec emax x y.
Definition f64_neg (x : float64) : float64 := SFopp x.

(** [x < y] on [float64]. *)
Definition f64_lt (x y : float64) : bool := SFltb x y.

(** The constant [floatTolerance], 0.0001 as a [float64]. *)
Definition floatTolerance : float64 := f64_lit 7378697629483821 (-66).

Definition abs (f : float64) : float64 :=
  if f64_lt f f64_zero then f64_neg f else f.

(** The condition under which [TestAnalyzeData] reports the revenue [got]
    against the expected [want]. *)
Definition revenue_mismatch (got want : float64) : bool :=
  f64_lt floatTolerance (abs (f64_sub got want)).

End AnalyzerTest.

(** ** An instance of the library, and the data of the package's tests *)

Module Demo.

Definition digit_of (c : ascii) : option Z :=
  let n := Z.of_N (N_of_ascii c) in
  if (48 <=? n) && (n <=? 57) then Some (n - 48) else None.

(** The value and the number of the characters of [s], all decimal digits. *)
Fixpoint digits (s : string) (acc count : Z) : option (Z * Z) :=
  match s with
  | EmptyString => Some (acc, count)
  | String c s' =>
      match digit_of c with
      | Some d => digits s' (10 * acc + d) (count + 1)
      | None => None
      end
  end.

Definition split_sign (s : string) : bool * string :=
  match s with
  | String "-"%char s' => (true, s')
  | String "+"%char s' => (false, s')
  | _ => (false, s)
  end.

Fixpoint split_point (s : string) : string * string :=
  match s with
  | EmptyString => (EmptyString, EmptyString)
  | String c s' =>
      if Ascii.eqb c "."%char then (EmptyString, s')
      else let '(a, b) := split_point s' in (String c a, b)
  end.

Definition lower (c : ascii) : ascii :=
  let n := N_of_ascii c in
  if ((65 <=? n) && (n <=? 90))%N then ascii_of_N (n + 32) else c.

Fixpoint lowercase (s : string) : string :=
  match s with
  | EmptyString => EmptyString
  | String c s' => String (lower c) (lowercase s')
  end.

(** [strconv.Atoi]: an optional sign and decimal digits, within [int]. *)
Definition Atoi (s : string) : outcome Z :=
  let '(neg, body) := split_sign s in
  match digits body 0 0 with
  | Some (n, count) =>
      if count =? 0 then Err "invalid syntax"
      else
        let v := if neg then - n else n in
        if (min_int <=? v) && (v <=? max_int) then Ok v
        else Err "value out of range"
  | None => Err "invalid syntax"
  end.

(** The quotient [m / d] of two positive integers, rounded to nearest even:
    the integer quotient is taken with more than 53 bits and a sticky bit. *)
Definition f64_of_ratio (neg : bool) (m d : Z) : float64 :=
  let s := Z.max 0 (64 + Z.log2 d - Z.log2 m) in
  let n := m * 2 ^ s in
  let sticky := if n mod d =? 0 then 0 else 1 in
  binary_normalize prec emax (cond_Zopp neg (2 * (n / d) + sticky)) (- s - 1) neg.

(** [strconv.ParseFloat(s, 64)] on the names of the special values and on
    plain decimal literals; exponents, hexadecimal literals and digit
    separators are left out of this instance, which rejects them. *)
Definition ParseFloat (s : string) : outcome float64 :=
  let name := lowercase s in
  if decide (name = "nan") then Ok S754_nan
  else if decide (name ∈ ["inf"; "+inf"; "infinity"; "+infinity"]) then Ok (S754_infinity false)
  else if decide (name ∈ ["-inf"; "-infinity"]) then Ok (S754_infinity true)
  else
    let '(neg, body) := split_sign s in
    let '(int_part, frac_part) := split_point body in
    match digits int_part 0 0, digits frac_part 0 0 with
    | Some (i, ci), Some (f, cf) =>
        if ci + cf =? 0 then Err "invalid syntax"
        else
          match f64_of_ratio neg (i * 10 ^ cf + f) (10 ^ cf) with
          | S754_infinity _ => Err "value out of range"
          | x => Ok x
          end
    | _, _ => Err "invalid syntax"
    end.

(** A file system with the files of [TestParseCSV], after [csv.Reader] has
    split them into rows; every other path does not exist. *)
Definition header : list string := ["Date"; "Product"; "Quantity"; "Price"].

Definition os_Open (filePath : string) : outcome (list read_event) :=
  if decide (filePath = "valid.csv") then
    Ok [Row header;
        Row ["2023-10-01"; "Laptop"; "2"; "1200.50"];
        Row ["2023-10-02"; "Mouse"; "10"; "25.99"]]
  else if decide (filePath = "bad_qty.csv") then
    Ok [Row header;
        Row ["2023-10-01"; "Laptop"; "Two"; "1200.50"];
        Row ["2023-10-02"; "Mouse"; "10"; "25.99"]]
  else if decide (filePath = "bad_price.csv") then
    Ok [Row header;
        Row ["2023-10-01"; "Keyboard"; "5"; "INVALID_PRICE"];
        Row ["2023-10-02"; "Mouse"; "10"; "25.99"]]
  else if decide (filePath = "bad_cols.csv") then
    Ok [Row header;
        Row ["2023-10-01"; "ProductA"; "5"; "10.0"; "EXTRA_FIELD"];
        Row ["2023-10-02"; "Mouse"; "10"; "25.99"]]
  else if decide (filePath = "special.csv") then
    Ok [Row header;
        Row ["2023-10-01"; "Laptop"; "2"; "NaN"];
        Row ["2023-10-02"; "Mouse"; "10"; "Inf"]]
  else if decide (filePath = "bare_quote.csv") then
    Ok [Row header;
        Row ["2023-10-01"; "Laptop"; "2"; "1200.50"];
        Fail "bare quote in non-quoted field";
        Row ["2023-10-02"; "Mouse"; "10"; "25.99"]]
  else if decide (filePath = "empty.csv") then Ok []
  else if decide (filePath = "header_only.csv") then Ok [Row header]
  else Err "no such file or directory".

Definition ParseCSV : string → parse_result := Parser.ParseCSV os_Open Atoi ParseFloat.

(** The inputs of [TestAnalyzeData]. *)
Definition normal_data : list SaleRecord :=
  [mkSaleRecord "2023" "ProductA" 10 (f64_lit 5 0);
   mkSaleRecord "2023" "ProductB" 5 (f64_lit 20 0);
   mkSaleRecord "2023" "ProductA" 2 (f64_lit 5 0)].

Definition single_record : list SaleRecord :=
  [mkSaleRecord "2023" "ProductZ" 1 (f64_lit 7036170730324623 (-46))].

(** Inputs on which the second loop never replaces the initial maximum, or
    replaces it with the empty key. *)
Definition zero_sale : list SaleRecord :=
  [mkSaleRecord "2023" "ProductA" 0 (f64_lit 5 0)].

Definition unnamed_sale : list SaleRecord :=
  [mkSaleRecord "2023" "" 5 (f64_lit 5 0)].

Definition overflowing_sales : list SaleRecord :=
  [mkSaleRecord "2023" "ProductA" max_int (f64_lit 5 0);
   mkSaleRecord "2023" "ProductA" 1 (f64_lit 5 0)].

(** A sale of nothing beside a sale of five units. *)
Definition zero_and_sale : list SaleRecord :=
  [mkSaleRecord "2023" "ProductA" 0 (f64_lit 5 0);
   mkSaleRecord "2023" "ProductB" 5 (f64_lit 20 0)].

(** Two negative quantities whose sum is below the smallest [int]. *)
Definition underflowing_sales : list SaleRecord :=
  [mkSaleRecord "2023" "ProductA" min_int (f64_lit 5 0);
   mkSaleRecord "2023" "ProductA" (-1) (f64_lit 5 0)].

End Demo.

(** The command over that instance, the map being visited in key order. *)
Module DemoMain.

Definition main : option string → run :=
  Main.main Demo.os_Open Demo.Atoi Demo.ParseFloat map_to_list.

Definition command : command_line → run :=
  Main.command Demo.os_Open Demo.Atoi Demo.ParseFloat map_to_list.

End DemoMain.

(** * Properties *)

(** ** Integer wrap-around *)

Lemma wrap_int_range (z : Z) : in_int (wrap_int z).
Proof.
  unfold in_int, wrap_int, min_int, max_int, int_bits.
  pose proof (Z.mod_pos_bound (z - - 2 ^ (64 - 1)) (2 ^ 64) ltac:(lia)).
  change (2 ^ (64 - 1)) with 9223372036854775808 in *.
  change (2 ^ 64) with 18446744073709551616 in *.
  lia.
Qed.

Lemma wrap_int_id (z : Z) : in_int z → wrap_int z = z.
Proof.
  unfold in_int, wrap_int, min_int, max_int, int_bits.
  change (2 ^ (64 - 1)) with 9223372036854775808.
  change (2 ^ 64) with 18446744073709551616.
  intros Hz. rewrite Z.mod_small; lia.
Qed.

Lemma wrap_int_add_l (a b : Z) : wrap_int (wrap_int a + b) = wrap_int (a + b).
Proof.
  unfold wrap_int. f_equal.
  replace ((a - min_int) mod 2 ^ int_bits + min_int + b - min_int)
    with ((a - min_int) mod 2 ^ int_bits + b) by lia.
  rewrite Zplus_mod_idemp_l. f_equal. lia.
Qed.

Lemma wrap_int_idemp (z : Z) : wrap_int (wrap_int z) = wrap_int z.
Proof. apply wrap_int_id, wrap_int_range. Qed.

(** ** The first loop of [AnalyzeData] *)

Lemma exact_sum_absent (records : list SaleRecord) (k : string) :
  k ∉ product_keys records → exact_sum records k = 0.
Proof.
  unfold product_keys.
  induction records as [|r rest IH]; simpl; intros Hk; [reflexivity|].
  rewrite not_elem_of_cons in Hk. destruct Hk as [Hne Hrest].
  rewrite decide_False by congruence. rewrite IH by assumption. lia.
Qed.

Lemma fold_accumulate_result (records : list SaleRecord) :
  ∀ (result : AnalysisResult) (m : gmap string Z),
    let result' := fst (fold_left accumulate records (result, m)) in
    TotalTransactions result' = TotalTransactions result ∧
    TotalRevenue result' = fold_left add_revenue records (TotalRevenue result) ∧
    MostPopularProduct result' = MostPopularProduct result ∧
    MaxQuantitySoldUnits result' = MaxQuantitySoldUnits result.
Proof.
  induction records as [|r rest IH]; intros result m; simpl.
  - repeat split.
  - specialize (IH (fst (accumulate (result, m) r)) (snd (accumulate (result, m) r))).
    rewrite <- surjective_pairing in IH. simpl in IH. exact IH.
Qed.

Lemma fold_accumulate_lookup (records : list SaleRecord) :
  ∀ (result : AnalysisResult) (m : gmap string Z) (k : string),
    snd (fold_left accumulate records (result, m)) !! k =
    if decide (k ∈ product_keys records)
    then Some (wrap_int (map_get m k + exact_sum records k))
    else m !! k.
Proof.
  unfold product_keys.
  induction records as [|r rest IH]; intros result m k.
  - rewrite decide_False by apply not_elem_of_nil. reflexivity.
  - cbn [fold_left exact_sum accumulate]. rewrite IH, fmap_cons. unfold map_get.
    destruct (decide (Product r = k)) as [Heq|Hne].
    + subst k. rewrite lookup_insert_eq. cbn [default from_option id].
      rewrite (decide_True (P := Product r ∈ Product r :: _)) by apply list_elem_of_here.
      destruct (decide (Product r ∈ Product <$> rest)) as [Hin|Hout].
      * f_equal. unfold int_add. rewrite wrap_int_add_l. f_equal. lia.
      * f_equal. unfold int_add.
        rewrite (exact_sum_absent rest (Product r)) by exact Hout. f_equal. lia.
    + rewrite lookup_insert_ne by exact Hne.
      destruct (decide (k ∈ Product <$> rest)) as [Hin|Hout].
      * rewrite decide_True by (apply list_elem_of_further; exact Hin).
        rewrite Z.add_0_l. reflexivity.
      * rewrite decide_False; [reflexivity|].
        rewrite not_elem_of_cons. split; [congruence | exact Hout].
Qed.

Lemma productQuantities_lookup (records : list SaleRecord) (k : string) :
  productQuantities records !! k =
  if decide (k ∈ product_keys records) then Some (summed_quantity records k) else None.
Proof.
  unfold productQuantities, first_pass. rewrite fold_accumulate_lookup.
  unfold map_get, summed_quantity. rewrite lookup_empty. simpl.
  reflexivity.
Qed.

Lemma productQuantities_entry (records : list SaleRecord) (k : string) (v : Z) :
  productQuantities records !! k = Some v ↔
  k ∈ product_keys records ∧ summed_quantity records k = v.
Proof.
  rewrite productQuantities_lookup.
  destruct (decide (k ∈ product_keys records)) as [Hin|Hout]; split.
  - intros [= <-]. split; [exact Hin | reflexivity].
  - intros [_ <-]. reflexivity.
  - discriminate.
  - intros [Hin _]. contradiction.
Qed.

(** ** The second loop of [AnalyzeData] *)

Lemma fold_select_result (entries : list (string * Z)) :
  ∀ result : AnalysisResult,
    let result' := fold_left select entries result in
    TotalTransactions result' = TotalTransactions result ∧
    TotalRevenue result' = TotalRevenue result ∧
    MaxQuantitySoldUnits result <= MaxQuantitySoldUnits result' ∧
    (∀ k v, (k, v) ∈ entries → v <= MaxQuantitySoldUnits result') ∧
    ((MaxQuantitySoldUnits result' = MaxQuantitySoldUnits result ∧
      MostPopularProduct result' = MostPopularProduct result) ∨
     (MaxQuantitySoldUnits result < MaxQuantitySoldUnits result' ∧
      (MostPopularProduct result', MaxQuantitySoldUnits result') ∈ entries)).
Proof.
  induction entries as [|[k v] rest IH]; intros result; cbn [fold_left].
  - repeat split; try lia.
    + intros k v Hin. apply elem_of_nil in Hin. contradiction.
    + left. split; reflexivity.
  - specialize (IH (select result (k, v))).
    cbv zeta in IH. destruct IH as (Htt & Hrev & Hle & Hall & Hkey).
    assert (Hsel :
      (MaxQuantitySoldUnits result < v ∧
       select result (k, v) =
         mkAnalysisResult (TotalTransactions result) (TotalRevenue result) k v) ∨
      (v <= MaxQuantitySoldUnits result ∧ select result (k, v) = result)).
    { unfold select. destruct (Z.ltb_spec (MaxQuantitySoldUnits result) v).
      - left. split; [assumption | reflexivity].
      - right. split; [assumption | reflexivity]. }
    destruct Hsel as [[Hlt Heq] | [Hge Heq]]; rewrite Heq in *; clear Heq;
      cbn [TotalTransactions TotalRevenue MostPopularProduct MaxQuantitySoldUnits] in *.
    + split; [exact Htt|]. split; [exact Hrev|]. split; [lia|]. split.
      * intros k' v' Hin. apply elem_of_cons in Hin.
        destruct Hin as [[= -> ->] | Hin]; [exact Hle | eapply Hall; exact Hin].
      * right. split; [lia|].
        destruct Hkey as [[Hm Hp] | [Hm Hin]].
        -- rewrite Hm, Hp. apply list_elem_of_here.
        -- apply list_elem_of_further. exact Hin.
    + split; [exact Htt|]. split; [exact Hrev|]. split; [exact Hle|]. split.
      * intros k' v' Hin. apply elem_of_cons in Hin.
        destruct Hin as [[= -> ->] | Hin]; [lia | eapply Hall; exact Hin].
      * destruct Hkey as [[Hm Hp] | [Hm Hin]].
        -- left. split; assumption.
        -- right. split; [exact Hm | apply list_elem_of_further; exact Hin].
Qed.

Lemma AnalyzeData_unfold (range : gmap string Z → list (string * Z))
    (records : list SaleRecord) :
  AnalyzeData range records =
  fold_left select (range (productQuantities records)) (fst (first_pass records)).
Proof.
  unfold AnalyzeData, productQuantities.
  destruct (first_pass records) as [result m]. reflexivity.
Qed.

Lemma first_pass_result (records : list SaleRecord) :
  TotalTransactions (fst (first_pass records)) = Z.of_nat (length records) ∧
  TotalRevenue (fst (first_pass records)) = fold_left add_revenue records f64_zero ∧
  MostPopularProduct (fst (first_pass records)) = "" ∧
  MaxQuantitySoldUnits (fst (first_pass records)) = 0.
Proof.
  unfold first_pass.
  exact (fold_accumulate_result records (init_result records) ∅).
Qed.

Lemma range_entry (range : gmap string Z → list (string * Z))
    (records : list SaleRecord) (k : string) (v : Z) :
  range_order range →
  ((k, v) ∈ range (productQuantities records) ↔
   k ∈ product_keys records ∧ summed_quantity records k = v).
Proof.
  intros Hrange. rewrite (Hrange (productQuantities records)).
  rewrite elem_of_map_to_list. apply productQuantities_entry.
Qed.

(** The two fields that the second loop does not touch. *)
Lemma AnalyzeData_count (range : gmap string Z → list (string * Z))
    (records : list SaleRecord) :
  TotalTransactions (AnalyzeData range records) = Z.of_nat (length records).
Proof.
  rewrite AnalyzeData_unfold.
  pose proof (fold_select_result (range (productQuantities records))
                (fst (first_pass records))) as H.
  cbv zeta in H. destruct H as (-> & _). apply first_pass_result.
Qed.

Lemma AnalyzeData_revenue (range : gmap string Z → list (string * Z))
    (records : list SaleRecord) :
  TotalRevenue (AnalyzeData range records) = fold_left add_revenue records f64_zero.
Proof.
  rewrite AnalyzeData_unfold.
  pose proof (fold_select_result (range (productQuantities records))
                (fst (first_pass records))) as H.
  cbv zeta in H. destruct H as (_ & -> & _). apply first_pass_result.
Qed.

(** What the second loop leaves in [result], whatever the order of the visit. *)
Lemma AnalyzeData_maximum (range : gmap string Z → list (string * Z))
    (records : list SaleRecord) :
  range_order range →
  let result := AnalyzeData range records in
  0 <= MaxQuantitySoldUnits result ∧
  (∀ k, k ∈ product_keys records →
        summed_quantity records k <= MaxQuantitySoldUnits result) ∧
  ((MaxQuantitySoldUnits result = 0 ∧ MostPopularProduct result = "") ∨
   (0 < MaxQuantitySoldUnits result ∧
    MostPopularProduct result ∈ product_keys records ∧
    summed_quantity records (MostPopularProduct result) = MaxQuantitySoldUnits result)).
Proof.
  intros Hrange result. subst result. rewrite AnalyzeData_unfold.
  pose proof (fold_select_result (range (productQuantities records))
                (fst (first_pass records))) as H.
  cbv zeta in H. destruct H as (_ & _ & Hle & Hall & Hkey).
  destruct (first_pass_result records) as (_ & _ & Hp0 & Hm0).
  rewrite Hm0 in Hle, Hkey. rewrite Hp0 in Hkey.
  split; [exact Hle|]. split.
  - intros k Hk. apply (Hall k). apply range_entry; [exact Hrange|].
    split; [exact Hk | reflexivity].
  - destruct Hkey as [Hkeep | [Hpos Hin]]; [left; exact Hkeep | right].
    apply range_entry in Hin; [|exact Hrange].
    destruct Hin as [Hin Hsum]. repeat split; assumption.
Qed.


(** ** The result of [AnalyzeData] *)

Lemma summed_quantity_exact (records : list SaleRecord) (k : string) :
  in_int (exact_sum records k) → summed_quantity records k = exact_sum records k.
Proof. apply wrap_int_id. Qed.

Lemma range_order_map_to_list : range_order map_to_list.
Proof. intros m. reflexivity. Qed.

(** C7: for every input sequence, [TotalTransactions] of the result is the
    length of the sequence, hence 0 for the empty one; the order in which the
    map is visited plays no part. *)
Theorem AnalyzeData_total_transactions
    (range : gmap string Z → list (string * Z)) (records : list SaleRecord) :
  TotalTransactions (AnalyzeData range records) = Z.of_nat (length records) ∧
  TotalTransactions (AnalyzeData range []) = 0.
Proof.
  assert (H : ∀ l, TotalTransactions (AnalyzeData range l) = Z.of_nat (length l)).
  { intros l. rewrite AnalyzeData_unfold.
    pose proof (fold_select_result (range (productQuantities l)) (fst (first_pass l))) as H.
    cbv zeta in H. destruct H as (-> & _).
    apply first_pass_result. }
  split; [apply H | apply (H [])].
Qed.

(** C2: for every input sequence, [TotalRevenue] of the result is the fold
    from left to right, in input order and from [0.0], of the floating-point
    step [acc + float64(quantity) * price]; so one more record at the end adds
    exactly its own product to the sum of the records before it. *)
Theorem AnalyzeData_total_revenue
    (range : gmap string Z → list (string * Z)) (records : list SaleRecord) :
  TotalRevenue (AnalyzeData range records) = fold_left add_revenue records f64_zero ∧
  ∀ record,
    TotalRevenue (AnalyzeData range (records ++ [record])) =
    f64_add (TotalRevenue (AnalyzeData range records))
            (f64_mul (f64_of_int (Quantity record)) (Price record)).
Proof.
  assert (H : ∀ l, TotalRevenue (AnalyzeData range l) = fold_left add_revenue l f64_zero).
  { intros l. rewrite AnalyzeData_unfold.
    pose proof (fold_select_result (range (productQuantities l)) (fst (first_pass l))) as H.
    cbv zeta in H. destruct H as (_ & -> & _).
    apply first_pass_result. }
  split; [apply H|].
  intros record. rewrite !H, fold_left_app. reflexivity.
Qed.

(** C4: the second loop starts from the maximum 0 and the empty key; an entry
    whose total is strictly greater than the current maximum installs its
    total and its key, any other entry leaves [result] as it is, and so an
    entry whose total equals the current maximum keeps the incumbent key. *)
Theorem select_strictly_greater
    (range : gmap string Z → list (string * Z)) (records : list SaleRecord)
    (result : AnalysisResult) (product : string) (totalQuantity : Z) :
  AnalyzeData range records =
    fold_left select (range (productQuantities records)) (fst (first_pass records)) ∧
  MaxQuantitySoldUnits (fst (first_pass records)) = 0 ∧
  MostPopularProduct (fst (first_pass records)) = "" ∧
  (MaxQuantitySoldUnits result < totalQuantity →
   select result (product, totalQuantity) = with_maximum result product totalQuantity) ∧
  (totalQuantity <= MaxQuantitySoldUnits result →
   select result (product, totalQuantity) = result) ∧
  (totalQuantity = MaxQuantitySoldUnits result →
   MostPopularProduct (select result (product, totalQuantity)) = MostPopularProduct result).
Proof.
  split; [apply AnalyzeData_unfold|].
  destruct (first_pass_result records) as (_ & _ & Hkey & Hmax).
  split; [exact Hmax|]. split; [exact Hkey|].
  unfold select, with_maximum.
  destruct (Z.ltb_spec (MaxQuantitySoldUnits result) totalQuantity) as [Hlt|Hge].
  - split; [reflexivity|]. split; intros; lia.
  - split; [intros; lia|]. split; reflexivity.
Qed.

Lemma select_strictly_greater_witness :
  let result := mkAnalysisResult 3 f64_zero "ProductA" 12 in
  select result ("ProductB", 13) = with_maximum result "ProductB" 13 ∧
  select result ("ProductB", 5) = result ∧
  MostPopularProduct (select result ("ProductB", 12)) = "ProductA".
Proof.
  intros result.
  pose proof (select_strictly_greater map_to_list [] result "ProductB" 13) as H13.
  pose proof (select_strictly_greater map_to_list [] result "ProductB" 5) as H5.
  pose proof (select_strictly_greater map_to_list [] result "ProductB" 12) as H12.
  split; [|split].
  - apply H13. reflexivity.
  - apply H5. discriminate.
  - apply H12. reflexivity.
Defined.

(** C10: when some product of the input has a strictly positive summed
    quantity, the maximum reported is strictly positive, the product named is
    a key of the input, and its summed quantity is the maximum reported; when
    none has, the result keeps the maximum 0 and the empty key. *)
Theorem AnalyzeData_most_popular
    (range : gmap string Z → list (string * Z)) (records : list SaleRecord) :
  range_order range →
  let result := AnalyzeData range records in
  (some_positive records →
   0 < MaxQuantitySoldUnits result ∧
   MostPopularProduct result ∈ product_keys records ∧
   summed_quantity records (MostPopularProduct result) = MaxQuantitySoldUnits result) ∧
  (¬ some_positive records →
   MaxQuantitySoldUnits result = 0 ∧ MostPopularProduct result = "").
Proof.
  intros Hrange result.
  destruct (AnalyzeData_maximum range records Hrange) as (Hnonneg & Hbound & Hcase).
  fold result in Hnonneg, Hbound, Hcase. split.
  - intros (k & Hk & Hpos). specialize (Hbound k Hk).
    destruct Hcase as [[Hzero _] | Hnamed]; [lia | exact Hnamed].
  - intros Hnone. destruct Hcase as [Hkeep | (Hpos & Hin & Hsum)]; [exact Hkeep|].
    exfalso. apply Hnone. exists (MostPopularProduct result).
    split; [exact Hin | lia].
Qed.

Lemma some_positive_normal_data : some_positive Demo.normal_data.
Proof.
  exists "ProductA". split.
  - apply list_elem_of_here.
  - vm_compute. reflexivity.
Defined.

Lemma none_positive_zero_sale : ¬ some_positive Demo.zero_sale.
Proof.
  intros (k & Hk & Hpos).
  apply list_elem_of_singleton in Hk. subst k.
  vm_compute in Hpos. discriminate Hpos.
Defined.

Lemma AnalyzeData_most_popular_witness :
  (0 < MaxQuantitySoldUnits (AnalyzeData map_to_list Demo.normal_data) ∧
   MostPopularProduct (AnalyzeData map_to_list Demo.normal_data)
     ∈ product_keys Demo.normal_data ∧
   summed_quantity Demo.normal_data
     (MostPopularProduct (AnalyzeData map_to_list Demo.normal_data)) =
   MaxQuantitySoldUnits (AnalyzeData map_to_list Demo.normal_data)) ∧
  (MaxQuantitySoldUnits (AnalyzeData map_to_list Demo.zero_sale) = 0 ∧
   MostPopularProduct (AnalyzeData map_to_list Demo.zero_sale) = "").
Proof.
  split.
  - apply (AnalyzeData_most_popular map_to_list Demo.normal_data range_order_map_to_list).
    exact some_positive_normal_data.
  - apply (AnalyzeData_most_popular map_to_list Demo.zero_sale range_order_map_to_list).
    exact none_positive_zero_sale.
Defined.

(** A record list given in full: membership is settled one element at a time. *)
Ltac each_element H :=
  repeat (apply elem_of_cons in H; destruct H as [-> | H]);
  [.. | apply elem_of_nil in H; contradiction].

Lemma zero_sale_result :
  AnalyzeData map_to_list Demo.zero_sale = mkAnalysisResult 1 (S754_zero false) "" 0.
Proof. vm_compute. reflexivity. Qed.

Lemma unnamed_sale_result :
  AnalyzeData map_to_list Demo.unnamed_sale = mkAnalysisResult 1 (f64_lit 25 0) "" 5.
Proof. vm_compute. reflexivity. Qed.

Lemma overflowing_sales_result :
  AnalyzeData map_to_list Demo.overflowing_sales =
  mkAnalysisResult 2 (f64_lit 5629499534213120 13) "" 0.
Proof. vm_compute. reflexivity. Qed.




(** C3, as stated, fails: the quantities of the input with the single record
    [("2023", "ProductA", 0, 5.0)] are non-negative and the result has the
    empty product, but one transaction. *)
Lemma empty_together_fails_on_zero_sale :
  (∀ r, r ∈ Demo.zero_sale → 0 <= Quantity r) ∧
  range_order map_to_list ∧
  ¬ empty_together (AnalyzeData map_to_list Demo.zero_sale).
Proof.
  split; [|split; [exact range_order_map_to_list|]].
  - intros r Hr. each_element Hr. discriminate.
  - rewrite zero_sale_result. intros [[Hempty _] _].
    cbn [MostPopularProduct TotalTransactions] in Hempty.
    specialize (Hempty eq_refl). discriminate Hempty.
Qed.

(** The same failure with a strictly positive quantity sold under the empty
    product key. *)
Example empty_together_fails_on_unnamed_sale :
  (∀ r, r ∈ Demo.unnamed_sale → 0 < Quantity r) ∧
  ¬ empty_together (AnalyzeData map_to_list Demo.unnamed_sale).
Proof.
  split.
  - intros r Hr. each_element Hr. reflexivity.
  - rewrite unnamed_sale_result. intros [[Hempty _] _].
    cbn [MostPopularProduct TotalTransactions] in Hempty.
    specialize (Hempty eq_refl). discriminate Hempty.
Qed.

(** The same failure with strictly positive quantities whose sum for one
    product exceeds the largest [int]. *)
Example empty_together_fails_on_overflowing_sales :
  (∀ r, r ∈ Demo.overflowing_sales → 0 < Quantity r ∧ Product r ≠ "") ∧
  ¬ empty_together (AnalyzeData map_to_list Demo.overflowing_sales).
Proof.
  split.
  - intros r Hr. each_element Hr; (split; [reflexivity | discriminate]).
  - rewrite overflowing_sales_result. intros [[Hempty _] _].
    cbn [MostPopularProduct TotalTransactions] in Hempty.
    specialize (Hempty eq_refl). discriminate Hempty.
Qed.

Lemma exact_sum_nonneg (records : list SaleRecord) (k : string) :
  (∀ r, r ∈ records → 0 <= Quantity r) → 0 <= exact_sum records k.
Proof.
  induction records as [|r rest IH]; intros Hpos; cbn [exact_sum]; [lia|].
  pose proof (Hpos r (list_elem_of_here r rest)) as Hr.
  assert (Hrest : 0 <= exact_sum rest k).
  { apply IH. intros r' Hr'. apply Hpos. apply list_elem_of_further. exact Hr'. }
  destruct (decide (Product r = k)); lia.
Qed.

Lemma exact_sum_member (records : list SaleRecord) (r : SaleRecord) :
  (∀ r', r' ∈ records → 0 <= Quantity r') →
  r ∈ records → Quantity r <= exact_sum records (Product r).
Proof.
  induction records as [|r0 rest IH]; intros Hpos Hr.
  - apply elem_of_nil in Hr. contradiction.
  - cbn [exact_sum].
    pose proof (Hpos r0 (list_elem_of_here r0 rest)) as Hr0.
    assert (Hpos' : ∀ r', r' ∈ rest → 0 <= Quantity r').
    { intros r' Hr'. apply Hpos. apply list_elem_of_further. exact Hr'. }
    pose proof (exact_sum_nonneg rest (Product r) Hpos') as Hrest.
    apply elem_of_cons in Hr. destruct Hr as [->|Hr].
    + rewrite decide_True by reflexivity. lia.
    + specialize (IH Hpos' Hr). destruct (decide (Product r0 = Product r)); lia.
Qed.

(** The invariant from the summed quantities alone. *)
Lemma empty_together_from_sums
    (range : gmap string Z → list (string * Z)) (records : list SaleRecord) :
  range_order range →
  (records ≠ [] → some_positive records) →
  ¬ empty_key_leads records →
  empty_together (AnalyzeData range records).
Proof.
  intros Hrange Hsome Hlead.
  destruct (AnalyzeData_maximum range records Hrange) as (_ & Hbound & Hcase).
  pose proof (AnalyzeData_count range records) as Hcount.
  cbv zeta in Hbound, Hcase. unfold empty_together. rewrite Hcount.
  destruct records as [|r rest].
  - destruct Hcase as [[Hzero Hempty] | (_ & Hin & _)].
    + rewrite Hzero, Hempty. cbn [length]. split; split; reflexivity.
    + apply elem_of_nil in Hin. contradiction.
  - destruct (Hsome ltac:(discriminate)) as (k & Hk & Hpos).
    pose proof (Hbound k Hk) as Hk_le.
    destruct Hcase as [[Hzero _] | (Hmax & Hin & Hsum)]; [lia|].
    assert (Hkey : MostPopularProduct (AnalyzeData range (r :: rest)) ≠ "").
    { intros Heq. apply Hlead. rewrite Heq in Hin, Hsum. split; [exact Hin|].
      intros k' Hk'. rewrite Hsum. apply Hbound. exact Hk'. }
    cbn [length]. split; split; intros H; try contradiction; lia.
Qed.

(** C3, amended: for every input whose quantities are all non-negative and
    which, unless it is empty, has a product with a strictly positive summed
    quantity and does not have the empty string as a product key with the
    largest summed quantity, the product named is empty if and only if there
    is no transaction, if and only if the maximum is 0. *)
Theorem AnalyzeData_empty_together
    (range : gmap string Z → list (string * Z)) (records : list SaleRecord) :
  range_order range →
  (∀ r, r ∈ records → 0 <= Quantity r) →
  (records ≠ [] → some_positive records) →
  ¬ empty_key_leads records →
  empty_together (AnalyzeData range records).
Proof.
  intros Hrange _ Hsome Hlead.
  apply empty_together_from_sums; assumption.
Qed.

Lemma some_positive_zero_and_sale : some_positive Demo.zero_and_sale.
Proof.
  exists "ProductB". split.
  - apply list_elem_of_further, list_elem_of_here.
  - vm_compute. reflexivity.
Defined.

Lemma AnalyzeData_empty_together_witness :
  empty_together (AnalyzeData map_to_list Demo.zero_and_sale).
Proof.
  apply (AnalyzeData_empty_together map_to_list Demo.zero_and_sale).
  - exact range_order_map_to_list.
  - intros r Hr. each_element Hr; discriminate.
  - intros _. exact some_positive_zero_and_sale.
  - intros [Hin _].
    change ("" ∈ ["ProductA"; "ProductB"]) in Hin.
    repeat (apply elem_of_cons in Hin; destruct Hin as [Hin|Hin]; [discriminate Hin|]).
    apply elem_of_nil in Hin. contradiction.
Defined.

(** The same invariant from the quantities and the keys of the records. *)
Lemma empty_together_from_records
    (range : gmap string Z → list (string * Z)) (records : list SaleRecord) :
  range_order range →
  (∀ r, r ∈ records → 0 <= Quantity r) →
  (records ≠ [] → ∃ r, r ∈ records ∧ 0 < Quantity r) →
  (∀ r, r ∈ records → Product r ≠ "") →
  (∀ k, k ∈ product_keys records → exact_sum records k <= max_int) →
  empty_together (AnalyzeData range records).
Proof.
  intros Hrange Hnonneg Hsome Hnamed Hfits.
  apply empty_together_from_sums; [exact Hrange | |].
  - intros Hne. destruct (Hsome Hne) as (r & Hr & Hq).
    exists (Product r).
    assert (Hk : Product r ∈ product_keys records).
    { unfold product_keys. apply list_elem_of_fmap_2. exact Hr. }
    split; [exact Hk|].
    pose proof (exact_sum_member records r Hnonneg Hr) as Hge.
    specialize (Hfits (Product r) Hk).
    rewrite summed_quantity_exact; [lia|].
    unfold in_int, min_int, int_bits. split; [|exact Hfits].
    change (- 2 ^ (64 - 1)) with (-9223372036854775808). lia.
  - intros [Hin _]. unfold product_keys in Hin.
    apply list_elem_of_fmap in Hin. destruct Hin as (r & Heq & Hr).
    apply (Hnamed r Hr). symmetry. exact Heq.
Qed.

(** C10, as stated, fails when the sums are taken over the integers: the two
    records [("2023", "ProductA", 9223372036854775807, 5.0)] and
    [("2023", "ProductA", 1, 5.0)] have the strictly positive sum 2^63 for
    their product, yet the maximum reported is 0 and no product is named. *)
Lemma most_popular_exact_fails_on_overflowing_sales :
  range_order map_to_list ∧
  some_positive_exact Demo.overflowing_sales ∧
  ¬ most_popular_exact Demo.overflowing_sales
      (AnalyzeData map_to_list Demo.overflowing_sales).
Proof.
  assert (Hpos : some_positive_exact Demo.overflowing_sales).
  { exists "ProductA". split; [apply list_elem_of_here | vm_compute; reflexivity]. }
  split; [exact range_order_map_to_list|]. split; [exact Hpos|].
  rewrite overflowing_sales_result. intros [Hnamed _].
  destruct (Hnamed Hpos) as [Hmax _].
  cbn [MaxQuantitySoldUnits] in Hmax. discriminate Hmax.
Qed.

(** The other half fails as well: the records
    [("2023", "ProductA", -9223372036854775808, 5.0)] and
    [("2023", "ProductA", -1, 5.0)] have a negative sum, yet the result names
    their product with the largest [int] as its quantity. *)
Example most_popular_exact_fails_on_underflowing_sales :
  ¬ some_positive_exact Demo.underflowing_sales ∧
  AnalyzeData map_to_list Demo.underflowing_sales =
    mkAnalysisResult 2 (f64_lit (-5) 63) "ProductA" max_int ∧
  ¬ most_popular_exact Demo.underflowing_sales
      (AnalyzeData map_to_list Demo.underflowing_sales).
Proof.
  assert (Hnone : ¬ some_positive_exact Demo.underflowing_sales).
  { intros (k & Hk & Hpos).
    change (k ∈ ["ProductA"; "ProductA"]) in Hk.
    each_element Hk; vm_compute in Hpos; discriminate Hpos. }
  assert (Hres : AnalyzeData map_to_list Demo.underflowing_sales =
                 mkAnalysisResult 2 (f64_lit (-5) 63) "ProductA" max_int).
  { vm_compute. reflexivity. }
  split; [exact Hnone|]. split; [exact Hres|].
  rewrite Hres. intros [_ Hkeep]. destruct (Hkeep Hnone) as [Hmax _].
  cbn [MaxQuantitySoldUnits] in Hmax. discriminate Hmax.
Qed.

(** ** The loop of [ParseCSV] *)

Section ParseCSV_properties.

Variable os_Open : string → outcome (list read_event).
Variable Atoi : string → outcome Z.
Variable ParseFloat : string → outcome float64.

Lemma four_fields (row : list string) :
  (Z.of_nat (length row) =? 4) = true ↔ length row = 4%nat.
Proof. rewrite Z.eqb_eq. lia. Qed.

(** An iteration appends the record of the row, or prints a warning. *)
Lemma process_row_record (lineNumber : Z) (row : list string) :
  match process_row Atoi ParseFloat lineNumber row with
  | inl record => row_record Atoi ParseFloat row = Some record
  | inr _ => row_record Atoi ParseFloat row = None
  end.
Proof.
  unfold process_row, row_record.
  destruct (Z.of_nat (length row) =? 4) eqn:Hlen; cbn [negb].
  - apply four_fields in Hlen.
    destruct (Atoi (nth 2 row "")) as [q|c]; [|reflexivity].
    destruct (ParseFloat (nth 3 row "")) as [p|c]; [|reflexivity].
    rewrite decide_True by exact Hlen. reflexivity.
  - assert (Hne : length row ≠ 4%nat).
    { intros H. apply four_fields in H. congruence. }
    destruct (Atoi (nth 2 row "")) as [q|c]; [|reflexivity].
    destruct (ParseFloat (nth 3 row "")) as [p|c]; [|reflexivity].
    rewrite decide_False by exact Hne. reflexivity.
Qed.

Lemma row_record_None (row : list string) :
  row_record Atoi ParseFloat row = None ↔
  length row ≠ 4%nat ∨
  (∃ cause, Atoi (nth 2 row "") = Err cause) ∨
  (∃ cause, ParseFloat (nth 3 row "") = Err cause).
Proof.
  unfold row_record.
  destruct (Atoi (nth 2 row "")) as [q|c]; [|split; eauto].
  destruct (ParseFloat (nth 3 row "")) as [p|c]; [|split; eauto].
  destruct (decide (length row = 4%nat)) as [Hlen|Hlen]; split.
  - discriminate.
  - intros [H | [[c H] | [c H]]]; [contradiction | discriminate | discriminate].
  - intros _. left. exact Hlen.
  - reflexivity.
Qed.

Lemma row_record_Some (row : list string) (record : SaleRecord) :
  row_record Atoi ParseFloat row = Some record ↔
  length row = 4%nat ∧
  Atoi (nth 2 row "") = Ok (Quantity record) ∧
  ParseFloat (nth 3 row "") = Ok (Price record) ∧
  Date record = nth 0 row "" ∧
  Product record = nth 1 row "".
Proof.
  unfold row_record.
  destruct (Atoi (nth 2 row "")) as [q|c];
    [|split; [discriminate | intros (_ & H & _); discriminate]].
  destruct (ParseFloat (nth 3 row "")) as [p|c];
    [|split; [discriminate | intros (_ & _ & H & _); discriminate]].
  destruct (decide (length row = 4%nat)) as [Hlen|Hlen].
  - split.
    + intros [= <-]. repeat split; [exact Hlen].
    + intros (_ & [= ->] & [= ->] & Hd & Hp). destruct record; cbn in *. congruence.
  - split; [discriminate | intros (H & _); contradiction].
Qed.

(** A reader that yields rows only: the loop ends at the end of the input
    with the records of the rows that pass the checks, in order. *)
Lemma read_rows_rows (rows : list (list string)) :
  ∀ (lineNumber : Z) (records : list SaleRecord) (out : list warning),
    let res := read_rows Atoi ParseFloat (Row <$> rows) lineNumber records out in
    error_of res = None ∧
    records_of res = records ++ omap (row_record Atoi ParseFloat) rows.
Proof.
  induction rows as [|row rows IH]; intros lineNumber records out.
  - cbn. split; [reflexivity | rewrite app_nil_r; reflexivity].
  - rewrite fmap_cons. cbn [read_rows omap list_omap].
    pose proof (process_row_record lineNumber row) as Hrow.
    destruct (process_row Atoi ParseFloat lineNumber row) as [record|w];
      rewrite Hrow.
    + destruct (IH (int_add lineNumber 1) (records ++ [record]) out) as [He Hr].
      split; [exact He|]. cbv zeta. rewrite Hr, <- app_assoc. reflexivity.
    + exact (IH (int_add lineNumber 1) records (out ++ [w])).
Qed.

(** The loop reports an error exactly when some read fails, and then hands
    back no record. *)
Lemma read_rows_error (reader : list read_event) :
  ∀ (lineNumber : Z) (records : list SaleRecord) (out : list warning),
    let res := read_rows Atoi ParseFloat reader lineNumber records out in
    (error_of res ≠ None ↔ ∃ cause, Fail cause ∈ reader) ∧
    (error_of res ≠ None → records_of res = []).
Proof.
  induction reader as [|[row|cause] reader IH]; intros lineNumber records out.
  - cbn. split; [|congruence]. split; [congruence|].
    intros [cause H]. apply elem_of_nil in H. contradiction.
  - cbn [read_rows].
    assert (Hskip : (∃ cause, Fail cause ∈ Row row :: reader) ↔
                    (∃ cause, Fail cause ∈ reader)).
    { split; intros [cause H]; exists cause.
      - apply elem_of_cons in H. destruct H as [H|H]; [discriminate | exact H].
      - apply list_elem_of_further. exact H. }
    cbv zeta. rewrite Hskip.
    destruct (process_row Atoi ParseFloat lineNumber row) as [record|w]; apply IH.
  - cbn. split; [|reflexivity]. split; [|congruence].
    intros _. exists cause. apply list_elem_of_here.
Qed.

(** Rows followed by a failing read: the records of the rows are dropped. *)
Lemma read_rows_fail (rows : list (list string)) (cause : string)
    (rest : list read_event) :
  ∀ (lineNumber : Z) (records : list SaleRecord) (out : list warning),
    let res := read_rows Atoi ParseFloat ((Row <$> rows) ++ Fail cause :: rest)
                 lineNumber records out in
    records_of res = [] ∧ ∃ n, error_of res = Some (ErrLine n cause).
Proof.
  induction rows as [|row rows IH]; intros lineNumber records out.
  - cbn. split; [reflexivity | exists lineNumber; reflexivity].
  - rewrite fmap_cons. cbn [app read_rows].
    destruct (process_row Atoi ParseFloat lineNumber row) as [record|w]; apply IH.
Qed.

Lemma Fail_not_in_rows (rows : list (list string)) (cause : string) :
  Fail cause ∉ Row <$> rows.
Proof.
  intros H. apply list_elem_of_fmap in H. destruct H as (row & H & _). discriminate H.
Qed.

(** ** The result of [ParseCSV] *)

Lemma ParseCSV_rows (filePath : string) (rows : list (list string)) :
  reads_rows os_Open filePath rows →
  ParseCSV os_Open Atoi ParseFloat filePath =
  read_rows Atoi ParseFloat (Row <$> tail rows) 2 [] [].
Proof.
  unfold reads_rows, ParseCSV. intros ->.
  destruct rows as [|hdr rows]; reflexivity.
Qed.

(** C5: when no read of the source fails, the parse does not fail and returns
    the records of the data rows that pass the three checks, in input order;
    a data row with a field count other than 4, or whose third field is no
    integer, or whose fourth field is no floating-point number, yields no
    record and leaves the records of the rows around it in place; a row
    yields a record only if it passes all three checks. *)
Theorem ParseCSV_skips_invalid_rows (filePath : string) (rows : list (list string)) :
  reads_rows os_Open filePath rows →
  let res := ParseCSV os_Open Atoi ParseFloat filePath in
  error_of res = None ∧
  records_of res = omap (row_record Atoi ParseFloat) (tail rows) ∧
  (∀ before row after,
     tail rows = before ++ row :: after →
     length row ≠ 4%nat ∨
     (∃ cause, Atoi (nth 2 row "") = Err cause) ∨
     (∃ cause, ParseFloat (nth 3 row "") = Err cause) →
     records_of res =
       omap (row_record Atoi ParseFloat) before ++ omap (row_record Atoi ParseFloat) after) ∧
  (∀ row record,
     row_record Atoi ParseFloat row = Some record ↔
     length row = 4%nat ∧
     Atoi (nth 2 row "") = Ok (Quantity record) ∧
     ParseFloat (nth 3 row "") = Ok (Price record) ∧
     Date record = nth 0 row "" ∧
     Product record = nth 1 row "").
Proof.
  intros Hreads res. subst res. rewrite (ParseCSV_rows filePath rows Hreads).
  destruct (read_rows_rows (tail rows) 2 [] []) as [Herr Hrec].
  cbv zeta in Herr, Hrec. cbn [app] in Hrec.
  split; [exact Herr|]. split; [exact Hrec|]. split.
  - intros before row after Hsplit Hbad. rewrite Hrec, Hsplit, omap_app.
    apply row_record_None in Hbad. cbn [omap list_omap]. rewrite Hbad. reflexivity.
  - apply row_record_Some.
Qed.

(** C6: [ParseCSV] returns an error exactly when the source cannot be opened
    or when some read of the header or of a row fails with an error other
    than the end of the input; with an error it returns no records, also when
    valid rows were read before the failing one; a source whose reads all
    succeed up to the end of the input is parsed without error. *)
Theorem ParseCSV_fails_exactly (filePath : string) :
  let res := ParseCSV os_Open Atoi ParseFloat filePath in
  (error_of res ≠ None ↔
   open_failure os_Open filePath ∨ read_failure os_Open filePath) ∧
  (error_of res ≠ None → records_of res = []) ∧
  (∀ hdr rows cause rest,
     os_Open filePath = Ok (Row hdr :: (Row <$> rows) ++ Fail cause :: rest) →
     records_of res = [] ∧ ∃ n, error_of res = Some (ErrLine n cause)) ∧
  (∀ rows, reads_rows os_Open filePath rows → error_of res = None).
Proof.
  intros res. subst res. split; [|split; [|split]].
  - unfold ParseCSV, open_failure, read_failure.
    destruct (os_Open filePath) as [file|cause].
    + destruct file as [|[hdr|cause] reader].
      * cbn. split; [congruence|].
        intros [[c H] | (file & c & H & Hin)]; [discriminate|].
        injection H as <-. apply elem_of_nil in Hin. contradiction.
      * destruct (read_rows_error reader 2 [] []) as [Hiff _]. cbv zeta in Hiff.
        rewrite Hiff. split.
        -- intros [c Hin]. right. exists (Row hdr :: reader), c.
           split; [reflexivity | apply list_elem_of_further; exact Hin].
        -- intros [[c H] | (file & c & H & Hin)]; [discriminate|].
           injection H as <-. exists c.
           apply elem_of_cons in Hin. destruct Hin as [Hin|Hin]; [discriminate | exact Hin].
      * cbn. split; [|congruence]. intros _. right.
        exists (Fail cause :: reader), cause. split; [reflexivity | apply list_elem_of_here].
    + cbn. split; [|congruence]. intros _. left. exists cause. reflexivity.
  - unfold ParseCSV.
    destruct (os_Open filePath) as [file|cause]; [|reflexivity].
    destruct file as [|[hdr|cause] reader]; [cbn; congruence | | reflexivity].
    apply read_rows_error.
  - intros hdr rows cause rest Hopen. unfold ParseCSV. rewrite Hopen.
    apply read_rows_fail.
  - intros rows Hreads. rewrite (ParseCSV_rows filePath rows Hreads).
    apply read_rows_rows.
Qed.

(** C8: in a source whose reads all succeed, take a data row of four fields
    whose quantity parses. If the parser accepts its price field and gives
    not-a-number or an infinity, the row becomes a record that carries this
    value, between the records of the rows before and after it; and the row
    is left out exactly when the parser rejects its price field. *)
Theorem ParseCSV_accepts_special_price (filePath : string) (hdr : list string)
    (before : list (list string)) (row : list string) (after : list (list string))
    (quantity : Z) :
  reads_rows os_Open filePath (hdr :: before ++ row :: after) →
  length row = 4%nat →
  Atoi (nth 2 row "") = Ok quantity →
  let res := ParseCSV os_Open Atoi ParseFloat filePath in
  error_of res = None ∧
  (∀ price,
     ParseFloat (nth 3 row "") = Ok price →
     f64_is_nan price || f64_is_inf price = true →
     records_of res =
       omap (row_record Atoi ParseFloat) before ++
       mkSaleRecord (nth 0 row "") (nth 1 row "") quantity price ::
       omap (row_record Atoi ParseFloat) after) ∧
  ((∃ cause, ParseFloat (nth 3 row "") = Err cause) ↔
   records_of res =
     omap (row_record Atoi ParseFloat) before ++ omap (row_record Atoi ParseFloat) after).
Proof.
  intros Hreads Hlen Hqty res. subst res.
  rewrite (ParseCSV_rows filePath _ Hreads). cbn [tail].
  destruct (read_rows_rows (before ++ row :: after) 2 [] []) as [Herr Hrec].
  cbv zeta in Herr, Hrec. cbn [app] in Hrec.
  rewrite omap_app in Hrec. cbn [omap list_omap] in Hrec.
  split; [exact Herr|].
  unfold row_record at 2 in Hrec. rewrite Hqty in Hrec.
  destruct (ParseFloat (nth 3 row "")) as [p|c].
  - rewrite decide_True in Hrec by exact Hlen. split.
    + intros price [= <-] _. exact Hrec.
    + split; [intros [c H]; discriminate|].
      intros Heq. rewrite Hrec in Heq.
      apply (f_equal length) in Heq. rewrite !length_app in Heq.
      cbn [length] in Heq. lia.
  - split; [discriminate|]. split; [intros _; exact Hrec | eauto].
Qed.

(** C9: a source that is empty, or that holds a header line only, is parsed
    without error into no record, and nothing is printed: the end of the
    input met by the read of the header is not reported. *)
Theorem ParseCSV_empty_source (filePath : string) :
  (reads_rows os_Open filePath [] ∨ ∃ hdr, reads_rows os_Open filePath [hdr]) →
  ParseCSV os_Open Atoi ParseFloat filePath = mkParseResult [] None [].
Proof.
  intros [Hreads | [hdr Hreads]];
    rewrite (ParseCSV_rows filePath _ Hreads); reflexivity.
Qed.

End ParseCSV_properties.

(** ** The theorems at the data of the tests *)

Lemma ParseCSV_skips_invalid_rows_witness :
  reads_rows Demo.os_Open "bad_qty.csv"
    [Demo.header;
     ["2023-10-01"; "Laptop"; "Two"; "1200.50"];
     ["2023-10-02"; "Mouse"; "10"; "25.99"]] ∧
  error_of (Demo.ParseCSV "bad_qty.csv") = None ∧
  records_of (Demo.ParseCSV "bad_qty.csv") =
    [mkSaleRecord "2023-10-02" "Mouse" 10 (f64_lit 7315534644709949 (-48))].
Proof.
  assert (Hreads : reads_rows Demo.os_Open "bad_qty.csv"
            [Demo.header;
             ["2023-10-01"; "Laptop"; "Two"; "1200.50"];
             ["2023-10-02"; "Mouse"; "10"; "25.99"]]) by reflexivity.
  split; [exact Hreads|].
  destruct (ParseCSV_skips_invalid_rows Demo.os_Open Demo.Atoi Demo.ParseFloat
              "bad_qty.csv" _ Hreads) as (Herr & Hrec & _).
  split; [exact Herr|]. unfold Demo.ParseCSV. rewrite Hrec.
  vm_compute. reflexivity.
Defined.

Lemma ParseCSV_fails_exactly_witness :
  (error_of (Demo.ParseCSV "nonexistent.csv") ≠ None ∧
   records_of (Demo.ParseCSV "nonexistent.csv") = []) ∧
  (error_of (Demo.ParseCSV "bare_quote.csv") ≠ None ∧
   records_of (Demo.ParseCSV "bare_quote.csv") = []) ∧
  error_of (Demo.ParseCSV "valid.csv") = None.
Proof.
  pose proof (ParseCSV_fails_exactly Demo.os_Open Demo.Atoi Demo.ParseFloat
                "nonexistent.csv") as (Hiff1 & Hnone1 & _).
  pose proof (ParseCSV_fails_exactly Demo.os_Open Demo.Atoi Demo.ParseFloat
                "bare_quote.csv") as (Hiff2 & Hnone2 & _).
  pose proof (ParseCSV_fails_exactly Demo.os_Open Demo.Atoi Demo.ParseFloat
                "valid.csv") as (_ & _ & _ & Hok).
  assert (H1 : error_of (Demo.ParseCSV "nonexistent.csv") ≠ None).
  { apply Hiff1. left. exists "no such file or directory". reflexivity. }
  assert (H2 : error_of (Demo.ParseCSV "bare_quote.csv") ≠ None).
  { apply Hiff2. right. eexists. exists "bare quote in non-quoted field".
    split; [reflexivity|].
    apply list_elem_of_further, list_elem_of_further, list_elem_of_here. }
  split; [split; [exact H1 | exact (Hnone1 H1)]|].
  split; [split; [exact H2 | exact (Hnone2 H2)]|].
  apply (Hok [Demo.header;
              ["2023-10-01"; "Laptop"; "2"; "1200.50"];
              ["2023-10-02"; "Mouse"; "10"; "25.99"]]).
  reflexivity.
Defined.

Lemma ParseCSV_accepts_special_price_witness :
  reads_rows Demo.os_Open "special.csv"
    (Demo.header :: [] ++ ["2023-10-01"; "Laptop"; "2"; "NaN"] ::
       [["2023-10-02"; "Mouse"; "10"; "Inf"]]) ∧
  Demo.Atoi "2" = Ok 2 ∧
  Demo.ParseFloat "NaN" = Ok S754_nan ∧
  records_of (Demo.ParseCSV "special.csv") =
    [mkSaleRecord "2023-10-01" "Laptop" 2 S754_nan;
     mkSaleRecord "2023-10-02" "Mouse" 10 (S754_infinity false)].
Proof.
  assert (Hreads : reads_rows Demo.os_Open "special.csv"
            (Demo.header :: [] ++ ["2023-10-01"; "Laptop"; "2"; "NaN"] ::
               [["2023-10-02"; "Mouse"; "10"; "Inf"]])) by reflexivity.
  assert (Hqty : Demo.Atoi "2" = Ok 2) by reflexivity.
  assert (Hprice : Demo.ParseFloat "NaN" = Ok S754_nan) by reflexivity.
  split; [exact Hreads|]. split; [exact Hqty|]. split; [exact Hprice|].
  destruct (ParseCSV_accepts_special_price Demo.os_Open Demo.Atoi Demo.ParseFloat
              "special.csv" Demo.header [] ["2023-10-01"; "Laptop"; "2"; "NaN"]
              [["2023-10-02"; "Mouse"; "10"; "Inf"]] 2 Hreads eq_refl Hqty)
    as (_ & Hspecial & _).
  unfold Demo.ParseCSV. rewrite (Hspecial S754_nan Hprice eq_refl).
  vm_compute. reflexivity.
Defined.

Lemma ParseCSV_empty_source_witness :
  Demo.ParseCSV "empty.csv" = mkParseResult [] None [] ∧
  Demo.ParseCSV "header_only.csv" = mkParseResult [] None [].
Proof.
  split.
  - apply (ParseCSV_empty_source Demo.os_Open Demo.Atoi Demo.ParseFloat "empty.csv").
    left. reflexivity.
  - apply (ParseCSV_empty_source Demo.os_Open Demo.Atoi Demo.ParseFloat "header_only.csv").
    right. exists Demo.header. reflexivity.
Defined.

(** The cases of [TestParseCSV]: whether an error is returned and how many
    records come back. *)
Example TestParseCSV :
  (error_of (Demo.ParseCSV "valid.csv") = None ∧
   length (records_of (Demo.ParseCSV "valid.csv")) = 2%nat ∧
   Product <$> records_of (Demo.ParseCSV "valid.csv") = ["Laptop"; "Mouse"]) ∧
  error_of (Demo.ParseCSV "nonexistent.csv") =
    Some (ErrOpen "nonexistent.csv" "no such file or directory") ∧
  (error_of (Demo.ParseCSV "bad_qty.csv") = None ∧
   Product <$> records_of (Demo.ParseCSV "bad_qty.csv") = ["Mouse"]) ∧
  (error_of (Demo.ParseCSV "bad_price.csv") = None ∧
   length (records_of (Demo.ParseCSV "bad_price.csv")) = 1%nat) ∧
  (error_of (Demo.ParseCSV "bad_cols.csv") = None ∧
   length (records_of (Demo.ParseCSV "bad_cols.csv")) = 1%nat).
Proof. vm_compute. repeat split. Qed.

(** What the skipped rows of those files print. *)
Example TestParseCSV_warnings :
  printed (Demo.ParseCSV "bad_qty.csv") = [WarnQuantity 2 "Two" "invalid syntax"] ∧
  printed (Demo.ParseCSV "bad_price.csv") = [WarnPrice 2 "INVALID_PRICE" "invalid syntax"] ∧
  printed (Demo.ParseCSV "bad_cols.csv") = [WarnFields 2 5] ∧
  Demo.ParseCSV "bare_quote.csv" =
    mkParseResult [] (Some (ErrLine 3 "bare quote in non-quoted field")) [].
Proof. vm_compute. repeat split. Qed.

(** The cases of [TestAnalyzeData]. *)
Example TestAnalyzeData :
  AnalyzeData map_to_list Demo.normal_data =
    mkAnalysisResult 3 (f64_lit 160 0) "ProductA" 12 ∧
  AnalyzeData map_to_list [] = mkAnalysisResult 0 f64_zero "" 0 ∧
  AnalyzeData map_to_list Demo.single_record =
    mkAnalysisResult 1 (f64_lit 7036170730324623 (-46)) "ProductZ" 1.
Proof. vm_compute. repeat split. Qed.

(** The parser feeding the aggregator, on the first file of the tests. *)
Example valid_file_report :
  let result := AnalyzeData map_to_list (records_of (Demo.ParseCSV "valid.csv")) in
  TotalTransactions result = 2 ∧
  MostPopularProduct result = "Mouse" ∧
  MaxQuantitySoldUnits result = 10.
Proof. vm_compute. repeat split. Qed.

(** * Further properties *)

(** ** The map of the first loop *)

(** X1: after the first loop the map has an entry for exactly the products
    that occur in the input, each with the sum of its quantities in [int];
    a product that does not occur has no entry (Go reads it as 0). *)
Theorem productQuantities_content (records : list SaleRecord) :
  dom (productQuantities records) = list_to_set (product_keys records) ∧
  (∀ k, k ∈ product_keys records →
        productQuantities records !! k = Some (summed_quantity records k)) ∧
  (∀ k, k ∉ product_keys records →
        productQuantities records !! k = None ∧
        map_get (productQuantities records) k = 0).
Proof.
  split; [|split].
  - apply set_eq. intros k. rewrite elem_of_dom, elem_of_list_to_set.
    rewrite productQuantities_lookup.
    destruct (decide (k ∈ product_keys records)) as [Hin|Hout]; split; intros H.
    + exact Hin.
    + eexists. reflexivity.
    + destruct H as [v H]. discriminate H.
    + contradiction.
  - intros k Hk. rewrite productQuantities_lookup, decide_True by exact Hk. reflexivity.
  - intros k Hk. unfold map_get.
    rewrite productQuantities_lookup, decide_False by exact Hk. split; reflexivity.
Qed.

Lemma productQuantities_content_witness :
  productQuantities Demo.normal_data !! "ProductA" = Some 12 ∧
  productQuantities Demo.normal_data !! "ProductC" = None.
Proof.
  destruct (productQuantities_content Demo.normal_data) as (_ & Hin & Hout).
  split.
  - rewrite (Hin "ProductA") by apply list_elem_of_here. vm_compute. reflexivity.
  - apply (Hout "ProductC"). intros H.
    change ("ProductC" ∈ ["ProductA"; "ProductB"; "ProductA"]) in H.
    repeat (apply elem_of_cons in H; destruct H as [H|H]; [discriminate H|]).
    apply elem_of_nil in H. contradiction.
Defined.

(** ** The order of the visit and the order of the input *)

Lemma exact_sum_Permutation (records1 records2 : list SaleRecord) (k : string) :
  records1 ≡ₚ records2 → exact_sum records1 k = exact_sum records2 k.
Proof.
  induction 1 as [|r l1 l2 _ IH|r1 r2 l|l1 l2 l3 _ IH1 _ IH2]; cbn [exact_sum].
  - reflexivity.
  - rewrite IH. reflexivity.
  - lia.
  - congruence.
Qed.

Lemma product_keys_Permutation (records1 records2 : list SaleRecord) (k : string) :
  records1 ≡ₚ records2 → k ∈ product_keys records1 → k ∈ product_keys records2.
Proof.
  intros Hperm. unfold product_keys. rewrite Hperm. tauto.
Qed.

Lemma maximum_le (range1 range2 : gmap string Z → list (string * Z))
    (records1 records2 : list SaleRecord) :
  range_order range1 → range_order range2 → records1 ≡ₚ records2 →
  MaxQuantitySoldUnits (AnalyzeData range1 records1) <=
  MaxQuantitySoldUnits (AnalyzeData range2 records2).
Proof.
  intros H1 H2 Hperm.
  destruct (AnalyzeData_maximum range1 records1 H1) as (_ & _ & Hcase).
  destruct (AnalyzeData_maximum range2 records2 H2) as (Hnonneg & Hbound & _).
  cbv zeta in *.
  destruct Hcase as [[-> _] | (_ & Hin & Hsum)]; [exact Hnonneg|].
  rewrite <- Hsum. unfold summed_quantity.
  rewrite (exact_sum_Permutation records1 records2 _ Hperm).
  apply Hbound. eapply product_keys_Permutation; eassumption.
Qed.

(** X2: the transaction count and the maximum quantity reported depend
    neither on the order in which the map is visited nor on the order of the
    records of the input. *)
Theorem AnalyzeData_maximum_order_independent
    (range1 range2 : gmap string Z → list (string * Z))
    (records1 records2 : list SaleRecord) :
  range_order range1 → range_order range2 → records1 ≡ₚ records2 →
  TotalTransactions (AnalyzeData range1 records1) =
    TotalTransactions (AnalyzeData range2 records2) ∧
  MaxQuantitySoldUnits (AnalyzeData range1 records1) =
    MaxQuantitySoldUnits (AnalyzeData range2 records2).
Proof.
  intros H1 H2 Hperm. split.
  - rewrite !AnalyzeData_count, Hperm. reflexivity.
  - pose proof (maximum_le range1 range2 records1 records2 H1 H2 Hperm).
    pose proof (maximum_le range2 range1 records2 records1 H2 H1 (symmetry Hperm)).
    lia.
Qed.

Lemma range_order_reverse : range_order (λ m, reverse (map_to_list m)).
Proof. intros m. apply reverse_Permutation. Qed.

Lemma AnalyzeData_maximum_order_independent_witness :
  MaxQuantitySoldUnits (AnalyzeData map_to_list Demo.normal_data) =
  MaxQuantitySoldUnits
    (AnalyzeData (λ m, reverse (map_to_list m)) (reverse Demo.normal_data)).
Proof.
  apply (AnalyzeData_maximum_order_independent map_to_list
           (λ m, reverse (map_to_list m)) Demo.normal_data (reverse Demo.normal_data)).
  - exact range_order_map_to_list.
  - exact range_order_reverse.
  - symmetry. apply reverse_Permutation.
Defined.

(** The second loop over a list in which one entry is the first to reach the
    largest total. *)
Lemma fold_select_first_maximum (pre post : list (string * Z)) (k : string) (v : Z)
    (result : AnalysisResult) :
  MaxQuantitySoldUnits result < v →
  (∀ k' v', (k', v') ∈ pre → v' < v) →
  (∀ k' v', (k', v') ∈ post → v' <= v) →
  MostPopularProduct (fold_left select (pre ++ (k, v) :: post) result) = k ∧
  MaxQuantitySoldUnits (fold_left select (pre ++ (k, v) :: post) result) = v.
Proof.
  intros Hinit Hpre Hpost. rewrite fold_left_app. cbn [fold_left].
  pose proof (fold_select_result pre result) as H1. cbv zeta in H1.
  destruct H1 as (_ & _ & _ & _ & Hkey1).
  assert (Hlt : MaxQuantitySoldUnits (fold_left select pre result) < v).
  { destruct Hkey1 as [[-> _] | [_ Hin]]; [exact Hinit | eapply Hpre; exact Hin]. }
  assert (Hsel : select (fold_left select pre result) (k, v) =
                 with_maximum (fold_left select pre result) k v).
  { generalize dependent (fold_left select pre result). intros r _ Hr.
    unfold select, with_maximum.
    destruct (Z.ltb_spec (MaxQuantitySoldUnits r) v); [reflexivity | lia]. }
  rewrite Hsel.
  pose proof (fold_select_result post (with_maximum (fold_left select pre result) k v)) as H2.
  cbv zeta in H2. destruct H2 as (_ & _ & _ & _ & Hkey2).
  cbn [with_maximum MaxQuantitySoldUnits MostPopularProduct] in Hkey2.
  destruct Hkey2 as [[Hm Hp] | [Hm Hin]].
  - split; assumption.
  - apply Hpost in Hin. lia.
Qed.

(** The two conditions on the sums cannot be dropped: an input on which the
    invariant holds for every order of the visit satisfies both. *)
Lemma empty_together_needs_sums (records : list SaleRecord) :
  (∀ range, range_order range → empty_together (AnalyzeData range records)) →
  (records ≠ [] → some_positive records) ∧ ¬ empty_key_leads records.
Proof.
  intros Hall.
  assert (Hsome : records ≠ [] → some_positive records).
  { intros Hne.
    destruct (Hall map_to_list range_order_map_to_list) as [_ [_ Hzero]].
    destruct (AnalyzeData_maximum map_to_list records range_order_map_to_list)
      as (_ & _ & Hcase).
    cbv zeta in Hcase. rewrite AnalyzeData_count in Hzero.
    destruct Hcase as [[Hmax _] | (Hpos & Hin & Hsum)].
    - specialize (Hzero Hmax). destruct records; [congruence | discriminate Hzero].
    - exists (MostPopularProduct (AnalyzeData map_to_list records)).
      split; [exact Hin | lia]. }
  split; [exact Hsome|].
  intros [Hin Hlead].
  assert (Hne : records ≠ []).
  { intros ->. apply elem_of_nil in Hin. contradiction. }
  destruct (Hsome Hne) as (k & Hk & Hpos).
  pose proof (Hlead k Hk) as Hle.
  assert (Hentry : ("", summed_quantity records "") ∈ map_to_list (productQuantities records)).
  { apply elem_of_map_to_list, productQuantities_entry. split; [exact Hin | reflexivity]. }
  apply elem_of_Permutation in Hentry. destruct Hentry as [rest Hperm].
  set (range := λ m : gmap string Z,
         if decide (m = productQuantities records)
         then ("", summed_quantity records "") :: rest else map_to_list m).
  assert (Hrange : range_order range).
  { intros m. unfold range. destruct (decide (m = productQuantities records)) as [->|_];
      [symmetry; exact Hperm | reflexivity]. }
  destruct (Hall range Hrange) as [[Hempty _] _].
  rewrite AnalyzeData_count in Hempty.
  assert (Hwin : MostPopularProduct (AnalyzeData range records) = "").
  { rewrite AnalyzeData_unfold. unfold range. rewrite decide_True by reflexivity.
    apply (fold_select_first_maximum [] rest "" (summed_quantity records "")).
    - destruct (first_pass_result records) as (_ & _ & _ & ->). lia.
    - intros k' v' H. apply elem_of_nil in H. contradiction.
    - intros k' v' H.
      assert (Hin' : (k', v') ∈ map_to_list (productQuantities records)).
      { rewrite Hperm. apply list_elem_of_further. exact H. }
      apply elem_of_map_to_list, productQuantities_entry in Hin'.
      destruct Hin' as [Hk' <-]. apply Hlead. exact Hk'. }
  specialize (Hempty Hwin). destruct records; [congruence | discriminate Hempty].
Qed.

(** X3: among the entries with the largest total the one that the visit
    reaches first wins: if the visit meets [(k, v)] with [0 < v] after
    entries with smaller totals only, and no later entry has a larger total,
    then the result names [k] with the quantity [v]. *)
Theorem AnalyzeData_first_maximum_wins
    (range : gmap string Z → list (string * Z)) (records : list SaleRecord)
    (pre post : list (string * Z)) (k : string) (v : Z) :
  range (productQuantities records) = pre ++ (k, v) :: post →
  0 < v →
  (∀ k' v', (k', v') ∈ pre → v' < v) →
  (∀ k' v', (k', v') ∈ post → v' <= v) →
  MostPopularProduct (AnalyzeData range records) = k ∧
  MaxQuantitySoldUnits (AnalyzeData range records) = v.
Proof.
  intros Hvisit Hpos Hpre Hpost. rewrite AnalyzeData_unfold, Hvisit.
  apply fold_select_first_maximum; [|exact Hpre | exact Hpost].
  destruct (first_pass_result records) as (_ & _ & _ & ->). exact Hpos.
Qed.

Lemma AnalyzeData_first_maximum_wins_witness :
  MostPopularProduct (AnalyzeData map_to_list Demo.normal_data) = "ProductA" ∧
  MaxQuantitySoldUnits (AnalyzeData map_to_list Demo.normal_data) = 12.
Proof.
  apply (AnalyzeData_first_maximum_wins map_to_list Demo.normal_data
           [] [("ProductB", 5)] "ProductA" 12).
  - vm_compute. reflexivity.
  - reflexivity.
  - intros k' v' H. apply elem_of_nil in H. contradiction.
  - intros k' v' H. apply list_elem_of_singleton in H. injection H as -> ->. discriminate.
Defined.

(** The map of an input with two records for two different products. *)
Lemma productQuantities_pair (d1 d2 a b : string) (q1 q2 : Z) (p1 p2 : float64) :
  a ≠ b → in_int q1 → in_int q2 →
  productQuantities [mkSaleRecord d1 a q1 p1; mkSaleRecord d2 b q2 p2] =
  <[b := q2]> (<[a := q1]> ∅).
Proof.
  intros Hne H1 H2. unfold productQuantities, first_pass.
  cbn [fold_left accumulate snd Product Quantity]. unfold map_get, int_add.
  rewrite lookup_insert_ne by exact Hne. rewrite lookup_empty. cbn [default from_option id].
  rewrite !Z.add_0_l, !wrap_int_id by assumption. reflexivity.
Qed.

(** An order of visit that is prescribed on one map. *)
Lemma range_order_on (M : gmap string Z) (entries : list (string * Z)) :
  entries ≡ₚ map_to_list M →
  range_order (λ m, if decide (m = M) then entries else map_to_list m).
Proof.
  intros Hperm m. destruct (decide (m = M)) as [->|_]; [exact Hperm | reflexivity].
Qed.

(** X4: with a tie the product named depends on the order of the visit: for
    two records of different products with the same strictly positive
    quantity, one order of visit names the first product and another names
    the second. *)
Theorem AnalyzeData_tie_depends_on_order (d1 d2 a b : string) (q : Z) (p1 p2 : float64) :
  a ≠ b → 0 < q → q <= max_int →
  ∃ range1 range2,
    range_order range1 ∧ range_order range2 ∧
    MostPopularProduct
      (AnalyzeData range1 [mkSaleRecord d1 a q p1; mkSaleRecord d2 b q p2]) = a ∧
    MostPopularProduct
      (AnalyzeData range2 [mkSaleRecord d1 a q p1; mkSaleRecord d2 b q p2]) = b.
Proof.
  intros Hne Hpos Hmax.
  assert (Hq : in_int q).
  { unfold in_int, min_int, int_bits. split; [|exact Hmax].
    change (- 2 ^ (64 - 1)) with (-9223372036854775808). lia. }
  pose proof (productQuantities_pair d1 d2 a b q q p1 p2 Hne Hq Hq) as HM.
  set (records := [mkSaleRecord d1 a q p1; mkSaleRecord d2 b q p2]) in *.
  assert (Hlist : map_to_list (productQuantities records) ≡ₚ [(b, q); (a, q)]).
  { rewrite HM. rewrite map_to_list_insert.
    - rewrite map_to_list_insert by apply lookup_empty.
      rewrite map_to_list_empty. reflexivity.
    - rewrite lookup_insert_ne by exact Hne. apply lookup_empty. }
  exists (λ m, if decide (m = productQuantities records)
               then [(a, q); (b, q)] else map_to_list m).
  exists (λ m, if decide (m = productQuantities records)
               then [(b, q); (a, q)] else map_to_list m).
  split; [|split; [|split]].
  - apply range_order_on. rewrite Hlist. apply Permutation_swap.
  - apply range_order_on. rewrite Hlist. reflexivity.
  - rewrite AnalyzeData_unfold. rewrite decide_True by reflexivity.
    apply (fold_select_first_maximum [] [(b, q)] a q).
    + destruct (first_pass_result records) as (_ & _ & _ & ->). exact Hpos.
    + intros k' v' H. apply elem_of_nil in H. contradiction.
    + intros k' v' H. apply list_elem_of_singleton in H. injection H as -> ->. lia.
  - rewrite AnalyzeData_unfold. rewrite decide_True by reflexivity.
    apply (fold_select_first_maximum [] [(a, q)] b q).
    + destruct (first_pass_result records) as (_ & _ & _ & ->). exact Hpos.
    + intros k' v' H. apply elem_of_nil in H. contradiction.
    + intros k' v' H. apply list_elem_of_singleton in H. injection H as -> ->. lia.
Qed.

Lemma AnalyzeData_tie_depends_on_order_witness :
  ∃ range1 range2,
    range_order range1 ∧ range_order range2 ∧
    MostPopularProduct
      (AnalyzeData range1 [mkSaleRecord "2023" "ProductA" 7 (f64_lit 5 0);
                           mkSaleRecord "2023" "ProductB" 7 (f64_lit 20 0)]) = "ProductA" ∧
    MostPopularProduct
      (AnalyzeData range2 [mkSaleRecord "2023" "ProductA" 7 (f64_lit 5 0);
                           mkSaleRecord "2023" "ProductB" 7 (f64_lit 20 0)]) = "ProductB".
Proof.
  apply (AnalyzeData_tie_depends_on_order "2023" "2023" "ProductA" "ProductB" 7).
  - discriminate.
  - reflexivity.
  - discriminate.
Defined.

(** X5: without a tie the result is the same for every order of the visit. *)
Theorem AnalyzeData_deterministic_without_tie
    (range1 range2 : gmap string Z → list (string * Z)) (records : list SaleRecord) :
  range_order range1 → range_order range2 → no_tie records →
  AnalyzeData range1 records = AnalyzeData range2 records.
Proof.
  intros H1 H2 Hno.
  pose proof (AnalyzeData_count range1 records) as Hc1.
  pose proof (AnalyzeData_count range2 records) as Hc2.
  pose proof (AnalyzeData_revenue range1 records) as Hr1.
  pose proof (AnalyzeData_revenue range2 records) as Hr2.
  pose proof (maximum_le range1 range2 records records H1 H2 (reflexivity _)) as Hle1.
  pose proof (maximum_le range2 range1 records records H2 H1 (reflexivity _)) as Hle2.
  destruct (AnalyzeData_maximum range1 records H1) as (_ & Hb1 & Hcase1).
  destruct (AnalyzeData_maximum range2 records H2) as (_ & _ & Hcase2).
  cbv zeta in *.
  assert (Hkey : MostPopularProduct (AnalyzeData range1 records) =
                 MostPopularProduct (AnalyzeData range2 records)).
  { destruct Hcase1 as [[Hz1 He1] | (Hp1 & Hin1 & Hs1)];
      destruct Hcase2 as [[Hz2 He2] | (Hp2 & Hin2 & Hs2)]; try lia.
    - congruence.
    - apply Hno; [exact Hin1 | exact Hin2 | | lia].
      intros k Hk. rewrite Hs1. apply Hb1. exact Hk. }
  destruct (AnalyzeData range1 records), (AnalyzeData range2 records).
  cbn in *. f_equal; [congruence | congruence | exact Hkey | lia].
Qed.

Lemma no_tie_normal_data : no_tie Demo.normal_data.
Proof.
  intros k1 k2 Hk1 Hk2 _ Heq.
  change (k1 ∈ ["ProductA"; "ProductB"; "ProductA"]) in Hk1.
  change (k2 ∈ ["ProductA"; "ProductB"; "ProductA"]) in Hk2.
  each_element Hk1; each_element Hk2;
    first [reflexivity | vm_compute in Heq; discriminate Heq].
Defined.

Lemma AnalyzeData_deterministic_without_tie_witness :
  AnalyzeData map_to_list Demo.normal_data =
  AnalyzeData (λ m, reverse (map_to_list m)) Demo.normal_data.
Proof.
  apply (AnalyzeData_deterministic_without_tie map_to_list
           (λ m, reverse (map_to_list m)) Demo.normal_data).
  - exact range_order_map_to_list.
  - exact range_order_reverse.
  - exact no_tie_normal_data.
Defined.

(** ** Revenue with a price that is not a number *)

Lemma f64_add_nan_l (x : float64) : f64_add S754_nan x = S754_nan.
Proof. reflexivity. Qed.

Lemma f64_add_nan_r (x : float64) : f64_add x S754_nan = S754_nan.
Proof. destruct x; reflexivity. Qed.

Lemma f64_mul_nan_r (x : float64) : f64_mul x S754_nan = S754_nan.
Proof. destruct x; reflexivity. Qed.

Lemma fold_add_revenue_nan (records : list SaleRecord) :
  fold_left add_revenue records S754_nan = S754_nan.
Proof.
  induction records as [|r rest IH]; [reflexivity|].
  cbn [fold_left]. unfold add_revenue at 2. rewrite f64_add_nan_l. exact IH.
Qed.

(** X6: one record whose price is not a number makes the total revenue not
    a number, whatever the other records are. *)
Theorem AnalyzeData_revenue_nan
    (range : gmap string Z → list (string * Z)) (records : list SaleRecord) :
  (∃ r, r ∈ records ∧ Price r = S754_nan) →
  TotalRevenue (AnalyzeData range records) = S754_nan.
Proof.
  intros (r & Hin & Hnan). rewrite AnalyzeData_revenue.
  apply list_elem_of_split in Hin. destruct Hin as (pre & post & ->).
  rewrite fold_left_app. cbn [fold_left]. unfold add_revenue at 2.
  rewrite Hnan, f64_mul_nan_r, f64_add_nan_r. apply fold_add_revenue_nan.
Qed.

Lemma AnalyzeData_revenue_nan_witness :
  TotalRevenue
    (AnalyzeData map_to_list
       [mkSaleRecord "2023-10-01" "Laptop" 2 S754_nan;
        mkSaleRecord "2023-10-02" "Mouse" 10 (f64_lit 7315534644709949 (-48))]) =
  S754_nan.
Proof.
  apply AnalyzeData_revenue_nan.
  exists (mkSaleRecord "2023-10-01" "Laptop" 2 S754_nan).
  split; [apply list_elem_of_here | reflexivity].
Defined.

(** ** The warnings and the line counter of [ParseCSV] *)

Section ParseCSV_warnings.

Variable os_Open : string → outcome (list read_event).
Variable Atoi : string → outcome Z.
Variable ParseFloat : string → outcome float64.

Lemma in_int_2 : in_int 2.
Proof. unfold in_int, min_int, max_int, int_bits. split; discriminate. Qed.

Lemma warnings_from_cons (lineNumber : Z) (row : list string)
    (rows : list (list string)) :
  in_int lineNumber →
  warnings_from Atoi ParseFloat lineNumber (row :: rows) =
  match row_warning Atoi ParseFloat lineNumber row with
  | Some w => [w]
  | None => []
  end ++ warnings_from Atoi ParseFloat (int_add lineNumber 1) rows.
Proof.
  intros Hn. unfold warnings_from. rewrite imap_cons. cbn [omap list_omap].
  rewrite Z.add_0_r, wrap_int_id by exact Hn.
  rewrite (imap_ext _
             (λ i r, row_warning Atoi ParseFloat
                       (wrap_int (int_add lineNumber 1 + Z.of_nat i)) r)).
  - destruct (row_warning Atoi ParseFloat lineNumber row); reflexivity.
  - intros i r _. cbn [compose]. unfold int_add. rewrite wrap_int_add_l.
    f_equal. f_equal. lia.
Qed.

(** The loop over rows followed by the rest of the reader: the rows add
    their records and their warnings, and the rest is read with the counter
    advanced by the number of the rows. *)
Lemma read_rows_app (rows : list (list string)) (reader : list read_event) :
  ∀ (lineNumber : Z) (records : list SaleRecord) (out : list warning),
    in_int lineNumber →
    read_rows Atoi ParseFloat ((Row <$> rows) ++ reader) lineNumber records out =
    read_rows Atoi ParseFloat reader
      (wrap_int (lineNumber + Z.of_nat (length rows)))
      (records ++ omap (row_record Atoi ParseFloat) rows)
      (out ++ warnings_from Atoi ParseFloat lineNumber rows).
Proof.
  induction rows as [|row rows IH]; intros lineNumber records out Hn.
  - cbn [fmap list_fmap app length omap list_omap]. unfold warnings_from.
    cbn [imap omap list_omap]. rewrite !app_nil_r, Z.add_0_r, wrap_int_id by exact Hn.
    reflexivity.
  - rewrite fmap_cons. cbn [app read_rows].
    rewrite (warnings_from_cons lineNumber row rows Hn). unfold row_warning at 1.
    pose proof (process_row_record Atoi ParseFloat lineNumber row) as Hrow.
    assert (Hline : wrap_int (int_add lineNumber 1 + Z.of_nat (length rows)) =
                    wrap_int (lineNumber + Z.of_nat (length (row :: rows)))).
    { unfold int_add. rewrite wrap_int_add_l. f_equal. cbn [length]. lia. }
    destruct (process_row Atoi ParseFloat lineNumber row) as [record|w];
      rewrite IH by apply wrap_int_range; rewrite Hline;
      cbn [omap list_omap]; rewrite Hrow.
    + rewrite <- app_assoc. reflexivity.
    + rewrite <- app_assoc. reflexivity.
Qed.

Lemma rows_accounted (rows : list (list string)) :
  ∀ lineNumber : Z,
    in_int lineNumber →
    (length (omap (row_record Atoi ParseFloat) rows) +
     length (warnings_from Atoi ParseFloat lineNumber rows))%nat = length rows.
Proof.
  induction rows as [|row rows IH]; intros lineNumber Hn; [reflexivity|].
  rewrite (warnings_from_cons lineNumber row rows Hn). unfold row_warning.
  pose proof (process_row_record Atoi ParseFloat lineNumber row) as Hrow.
  specialize (IH (int_add lineNumber 1) (wrap_int_range _)).
  cbn [omap list_omap].
  destruct (process_row Atoi ParseFloat lineNumber row) as [record|w]; rewrite Hrow;
    rewrite ?length_app; cbn [length app]; lia.
Qed.

Lemma ParseCSV_rows_result (filePath : string) (rows : list (list string)) :
  reads_rows os_Open filePath rows →
  ParseCSV os_Open Atoi ParseFloat filePath =
  mkParseResult (omap (row_record Atoi ParseFloat) (tail rows)) None
    (warnings_from Atoi ParseFloat 2 (tail rows)).
Proof.
  intros Hreads. rewrite (ParseCSV_rows os_Open Atoi ParseFloat filePath rows Hreads).
  rewrite <- (app_nil_r (Row <$> tail rows)).
  rewrite read_rows_app by exact in_int_2. reflexivity.
Qed.

(** X7: when no read fails, every data row is either turned into a record
    or reported by one warning: the records returned and the warnings printed
    are together as many as the data rows. *)
Theorem ParseCSV_rows_accounted (filePath : string) (rows : list (list string)) :
  reads_rows os_Open filePath rows →
  (length (records_of (ParseCSV os_Open Atoi ParseFloat filePath)) +
   length (printed (ParseCSV os_Open Atoi ParseFloat filePath)))%nat =
  length (tail rows).
Proof.
  intros Hreads. rewrite (ParseCSV_rows_result filePath rows Hreads).
  cbn [records_of printed]. apply rows_accounted. exact in_int_2.
Qed.

(** X8: when no read fails, the warnings are printed in the order of the
    rows, and the warning of the data row at index [i] carries the line
    number [2 + i] (as an [int]): a warning is printed exactly when it is the
    one that the checks give for some data row at its line. *)
Theorem ParseCSV_warning_lines (filePath : string) (rows : list (list string)) :
  reads_rows os_Open filePath rows →
  printed (ParseCSV os_Open Atoi ParseFloat filePath) =
    warnings_from Atoi ParseFloat 2 (tail rows) ∧
  ∀ w,
    w ∈ printed (ParseCSV os_Open Atoi ParseFloat filePath) ↔
    ∃ (i : nat) (row : list string),
      tail rows !! i = Some row ∧
      process_row Atoi ParseFloat (wrap_int (2 + Z.of_nat i)) row = inr w.
Proof.
  intros Hreads. rewrite (ParseCSV_rows_result filePath rows Hreads).
  cbn [printed]. split; [reflexivity|].
  intros w. unfold warnings_from. rewrite list_elem_of_omap. split.
  - intros (o & Hin & Ho). cbn in Ho. subst o.
    apply elem_of_lookup_imap in Hin. destruct Hin as (i & row & Heq & Hlook).
    exists i, row. split; [exact Hlook|].
    unfold row_warning in Heq.
    destruct (process_row Atoi ParseFloat (wrap_int (2 + Z.of_nat i)) row);
      [discriminate | congruence].
  - intros (i & row & Hlook & Hrow). exists (Some w). split; [|reflexivity].
    apply elem_of_lookup_imap. exists i, row. split; [|exact Hlook].
    unfold row_warning. rewrite Hrow. reflexivity.
Qed.

(** X9: when the read after the header and [n] rows fails, [ParseCSV]
    returns no record and the error of line [2 + n] with the cause of the
    failure; the warnings of the rows read before stay printed. *)
Theorem ParseCSV_critical_error (filePath : string) (hdr : list string)
    (rows : list (list string)) (cause : string) (rest : list read_event) :
  os_Open filePath = Ok (Row hdr :: (Row <$> rows) ++ Fail cause :: rest) →
  ParseCSV os_Open Atoi ParseFloat filePath =
  mkParseResult []
    (Some (ErrLine (wrap_int (2 + Z.of_nat (length rows))) cause))
    (warnings_from Atoi ParseFloat 2 rows).
Proof.
  intros Hopen. unfold ParseCSV. rewrite Hopen.
  rewrite read_rows_app by exact in_int_2. reflexivity.
Qed.

End ParseCSV_warnings.

Lemma ParseCSV_rows_accounted_witness :
  (length (records_of (Demo.ParseCSV "bad_cols.csv")) +
   length (printed (Demo.ParseCSV "bad_cols.csv")))%nat = 2%nat.
Proof.
  apply (ParseCSV_rows_accounted Demo.os_Open Demo.Atoi Demo.ParseFloat "bad_cols.csv"
           [Demo.header;
            ["2023-10-01"; "ProductA"; "5"; "10.0"; "EXTRA_FIELD"];
            ["2023-10-02"; "Mouse"; "10"; "25.99"]]).
  reflexivity.
Defined.

Lemma ParseCSV_warning_lines_witness :
  WarnFields 2 5 ∈ printed (Demo.ParseCSV "bad_cols.csv").
Proof.
  destruct (ParseCSV_warning_lines Demo.os_Open Demo.Atoi Demo.ParseFloat "bad_cols.csv"
              [Demo.header;
               ["2023-10-01"; "ProductA"; "5"; "10.0"; "EXTRA_FIELD"];
               ["2023-10-02"; "Mouse"; "10"; "25.99"]] eq_refl) as [_ Hiff].
  apply Hiff.
  exists 0%nat, ["2023-10-01"; "ProductA"; "5"; "10.0"; "EXTRA_FIELD"].
  split; reflexivity.
Defined.

Lemma ParseCSV_critical_error_witness :
  Demo.ParseCSV "bare_quote.csv" =
  mkParseResult [] (Some (ErrLine 3 "bare quote in non-quoted field")) [].
Proof.
  unfold Demo.ParseCSV.
  rewrite (ParseCSV_critical_error Demo.os_Open Demo.Atoi Demo.ParseFloat "bare_quote.csv"
             Demo.header [["2023-10-01"; "Laptop"; "2"; "1200.50"]]
             "bare quote in non-quoted field"
             [Row ["2023-10-02"; "Mouse"; "10"; "25.99"]] eq_refl).
  vm_compute. reflexivity.
Defined.

(** ** The command *)

Section main_properties.

Variable os_Open : string → outcome (list read_event).
Variable Atoi : string → outcome Z.
Variable ParseFloat : string → outcome float64.
Variable range : gmap string Z → list (string * Z).

Lemma ParseCSV_error_iff (filePath : string) :
  error_of (ParseCSV os_Open Atoi ParseFloat filePath) ≠ None ↔
  open_failure os_Open filePath ∨ read_failure os_Open filePath.
Proof.
  unfold ParseCSV, open_failure, read_failure.
  destruct (os_Open filePath) as [file|cause].
  - destruct file as [|[hdr|cause] reader].
    + cbn. split; [congruence|].
      intros [[c H] | (file & c & H & Hin)]; [discriminate|].
      injection H as <-. apply elem_of_nil in Hin. contradiction.
    + destruct (read_rows_error Atoi ParseFloat reader 2 [] []) as [Hiff _].
      cbv zeta in Hiff. rewrite Hiff. split.
      * intros [c Hin]. right. exists (Row hdr :: reader), c.
        split; [reflexivity | apply list_elem_of_further; exact Hin].
      * intros [[c H] | (file & c & H & Hin)]; [discriminate|].
        injection H as <-. exists c.
        apply elem_of_cons in Hin. destruct Hin as [Hin|Hin]; [discriminate | exact Hin].
    + cbn. split; [|congruence]. intros _. right.
      exists (Fail cause :: reader), cause. split; [reflexivity | apply list_elem_of_here].
  - cbn. split; [|congruence]. intros _. left. exists cause. reflexivity.
Qed.

(** The status of [main] once [flag.Parse] has returned. *)
Lemma main_status_parsed (file : option string) :
  (exit_status (main os_Open Atoi ParseFloat range file) = 1 ↔
   flag_file file = "" ∨
   open_failure os_Open (flag_file file) ∨
   read_failure os_Open (flag_file file)) ∧
  (exit_status (main os_Open Atoi ParseFloat range file) ≠ 1 →
   exit_status (main os_Open Atoi ParseFloat range file) = 0).
Proof.
  unfold main.
  destruct (decide (flag_file file = "")) as [Hempty|Hpath].
  - cbn. split; [|congruence]. split; [intros _; left; exact Hempty | reflexivity].
  - pose proof (ParseCSV_error_iff (flag_file file)) as Hiff. cbv zeta.
    destruct (error_of (ParseCSV os_Open Atoi ParseFloat (flag_file file))) as [err|].
    + cbn. split; [|congruence]. split; [|reflexivity].
      intros _. right. apply Hiff. discriminate.
    + assert (Hok : ¬ (open_failure os_Open (flag_file file) ∨
                       read_failure os_Open (flag_file file))).
      { intros H. apply Hiff in H. apply H. reflexivity. }
      destruct (Z.of_nat (length (records_of
                  (ParseCSV os_Open Atoi ParseFloat (flag_file file)))) =? 0);
        cbn; (split; [|reflexivity]); (split; [discriminate|]);
        intros [H|H]; contradiction.
Qed.

(** X10: the command ends with status 2 exactly when [flag.Parse] cannot
    parse the command line, and with status 1 exactly when [flag.Parse]
    returns and the file path is empty, the file cannot be opened, or a read
    of it fails; in every other case it ends with status 0, also when no row
    of the file is valid. When [flag.Parse] ends the process nothing is
    written to the standard output. *)
Theorem main_exit_status (args : command_line) :
  (exit_status (command os_Open Atoi ParseFloat range args) = 2 ↔ args = Malformed) ∧
  (exit_status (command os_Open Atoi ParseFloat range args) = 1 ↔
   ∃ file, args = Parsed file ∧
     (flag_file file = "" ∨
      open_failure os_Open (flag_file file) ∨
      read_failure os_Open (flag_file file))) ∧
  (exit_status (command os_Open Atoi ParseFloat range args) ≠ 1 →
   exit_status (command os_Open Atoi ParseFloat range args) ≠ 2 →
   exit_status (command os_Open Atoi ParseFloat range args) = 0) ∧
  (args = HelpRequested ∨ args = Malformed →
   stdout (command os_Open Atoi ParseFloat range args) = []).
Proof.
  destruct args as [file| |]; cbn [command].
  - destruct (main_status_parsed file) as [Hone Hzero].
    split; [|split; [|split]].
    + split; [|discriminate]. intros Htwo.
      destruct (decide (exit_status (main os_Open Atoi ParseFloat range file) = 1))
        as [H1|H1]; [congruence|].
      rewrite (Hzero H1) in Htwo. discriminate Htwo.
    + rewrite Hone. split.
      * intros H. exists file. split; [reflexivity | exact H].
      * intros (file' & [= <-] & H). exact H.
    + intros H1 _. exact (Hzero H1).
    + intros [H|H]; discriminate H.
  - cbn. split; [|split; [|split]].
    + split; discriminate.
    + split; [discriminate | intros (file & H & _); discriminate H].
    + reflexivity.
    + reflexivity.
  - cbn. split; [|split; [|split]].
    + split; reflexivity.
    + split; [discriminate | intros (file & H & _); discriminate H].
    + congruence.
    + reflexivity.
Qed.

(** X11: for a file whose reads all succeed the command prints the warnings
    of the parser first and ends with status 0; when no data row is valid it
    then prints that no valid records were found and no report; otherwise it
    prints the report of the valid rows, whose transaction count is the
    number of data rows less the number of warnings. *)
Theorem main_report (file : option string) (rows : list (list string)) :
  flag_file file ≠ "" →
  reads_rows os_Open (flag_file file) rows →
  let accepted := omap (row_record Atoi ParseFloat) (tail rows) in
  let warnings := warnings_from Atoi ParseFloat 2 (tail rows) in
  exit_status (main os_Open Atoi ParseFloat range file) = 0 ∧
  stdout (main os_Open Atoi ParseFloat range file) =
    (Warning <$> warnings) ++
    (if decide (accepted = []) then [NoValidRecords (flag_file file)]
     else report (flag_file file) (AnalyzeData range accepted)) ∧
  TotalTransactions (AnalyzeData range accepted) =
    Z.of_nat (length (tail rows)) - Z.of_nat (length warnings).
Proof.
  intros Hpath Hreads accepted warnings. unfold main.
  rewrite decide_False by exact Hpath. cbv zeta.
  rewrite (ParseCSV_rows_result os_Open Atoi ParseFloat _ rows Hreads).
  cbn [error_of records_of printed]. fold accepted. fold warnings.
  pose proof (rows_accounted Atoi ParseFloat (tail rows) 2 in_int_2) as Hcount.
  fold accepted in Hcount. fold warnings in Hcount.
  split; [|split].
  - destruct (Z.of_nat (length accepted) =? 0); reflexivity.
  - destruct accepted as [|record accepted'].
    + rewrite decide_True by reflexivity. reflexivity.
    + rewrite decide_False by discriminate. reflexivity.
  - rewrite AnalyzeData_count. lia.
Qed.

(** X12: whatever the file, a transaction count that the command prints is
    strictly positive, and the command that prints one ends with status 0:
    no report is printed for zero records or after an error. *)
Theorem main_reports_positive_count (file : option string) (n : Z) :
  TotalValidTransactions n ∈ stdout (main os_Open Atoi ParseFloat range file) →
  0 < n ∧ exit_status (main os_Open Atoi ParseFloat range file) = 0.
Proof.
  assert (Hwarn : ∀ ws : list warning, TotalValidTransactions n ∉ Warning <$> ws).
  { intros ws H. apply list_elem_of_fmap in H. destruct H as (w & H & _). discriminate H. }
  unfold main.
  destruct (decide (flag_file file = "")) as [Hempty|Hpath].
  - cbn. intros H.
    repeat (apply elem_of_cons in H; destruct H as [H|H]; [discriminate H|]).
    apply elem_of_nil in H. contradiction.
  - cbv zeta.
    destruct (error_of (ParseCSV os_Open Atoi ParseFloat (flag_file file))) as [err|].
    + cbn [stdout]. intros H. apply elem_of_app in H.
      destruct H as [H|H]; [apply Hwarn in H; contradiction|].
      apply list_elem_of_singleton in H. discriminate H.
    + destruct (Z.eqb_spec (Z.of_nat (length (records_of
                  (ParseCSV os_Open Atoi ParseFloat (flag_file file))))) 0) as [Hz|Hnz].
      * cbn [stdout]. intros H. apply elem_of_app in H.
        destruct H as [H|H]; [apply Hwarn in H; contradiction|].
        apply list_elem_of_singleton in H. discriminate H.
      * cbn [stdout exit_status]. intros H. apply elem_of_app in H.
        destruct H as [H|H]; [apply Hwarn in H; contradiction|].
        unfold report in H.
        apply elem_of_cons in H; destruct H as [H|H]; [discriminate H|].
        apply elem_of_cons in H; destruct H as [H|H]; [discriminate H|].
        apply elem_of_cons in H; destruct H as [H|H].
        -- injection H as ->. rewrite AnalyzeData_count. split; [lia | reflexivity].
        -- repeat (apply elem_of_cons in H; destruct H as [H|H]; [discriminate H|]).
           apply elem_of_nil in H. contradiction.
Qed.

End main_properties.

Lemma main_exit_status_witness :
  exit_status (DemoMain.command Malformed) = 2 ∧
  exit_status (DemoMain.command (Parsed (Some "nonexistent.csv"))) = 1 ∧
  exit_status (DemoMain.command (Parsed (Some ""))) = 1 ∧
  exit_status (DemoMain.command (Parsed (Some "header_only.csv"))) = 0 ∧
  stdout (DemoMain.command HelpRequested) = [].
Proof.
  split; [|split; [|split; [|split]]].
  - apply (main_exit_status Demo.os_Open Demo.Atoi Demo.ParseFloat map_to_list Malformed).
    reflexivity.
  - apply (main_exit_status Demo.os_Open Demo.Atoi Demo.ParseFloat map_to_list
             (Parsed (Some "nonexistent.csv"))).
    exists (Some "nonexistent.csv"). split; [reflexivity|].
    right. left. exists "no such file or directory". reflexivity.
  - apply (main_exit_status Demo.os_Open Demo.Atoi Demo.ParseFloat map_to_list
             (Parsed (Some ""))).
    exists (Some ""). split; [reflexivity | left; reflexivity].
  - apply (main_exit_status Demo.os_Open Demo.Atoi Demo.ParseFloat map_to_list
             (Parsed (Some "header_only.csv"))); vm_compute; discriminate.
  - apply (main_exit_status Demo.os_Open Demo.Atoi Demo.ParseFloat map_to_list
             HelpRequested).
    left. reflexivity.
Defined.

Lemma main_report_witness :
  exit_status (DemoMain.main (Some "bad_qty.csv")) = 0 ∧
  stdout (DemoMain.main (Some "bad_qty.csv")) =
    [Warning (WarnQuantity 2 "Two" "invalid syntax");
     ReportTitle;
     FileProcessed "bad_qty.csv";
     TotalValidTransactions 1;
     TotalRevenueLine (f64_lit 4572209152943718 (-44));
     MostPopularProductLine "Mouse" 10;
     ReportRule].
Proof.
  destruct (main_report Demo.os_Open Demo.Atoi Demo.ParseFloat map_to_list
              (Some "bad_qty.csv")
              [Demo.header;
               ["2023-10-01"; "Laptop"; "Two"; "1200.50"];
               ["2023-10-02"; "Mouse"; "10"; "25.99"]]
              ltac:(discriminate) eq_refl) as (Hexit & Hout & _).
  split; [exact Hexit|].
  unfold DemoMain.main. rewrite Hout. vm_compute. reflexivity.
Defined.

Lemma main_reports_positive_count_witness :
  TotalValidTransactions 2 ∈ stdout (DemoMain.main (Some "valid.csv")) ∧
  0 < 2 ∧
  exit_status (DemoMain.main (Some "valid.csv")) = 0.
Proof.
  assert (Hin : TotalValidTransactions 2 ∈ stdout (DemoMain.main (Some "valid.csv"))).
  { vm_compute. do 2 apply list_elem_of_further. apply list_elem_of_here. }
  split; [exact Hin|].
  exact (main_reports_positive_count Demo.os_Open Demo.Atoi Demo.ParseFloat map_to_list
           (Some "valid.csv") 2 Hin).
Defined.

(** ** The helpers of the tests *)

Lemma f64_sub_diag (x : float64) :
  AnalyzerTest.f64_sub x x = S754_nan ∨ ∃ s, AnalyzerTest.f64_sub x x = S754_zero s.
Proof.
  destruct x as [s|s| |s m e].
  - right. exists false. destruct s; reflexivity.
  - left. destruct s; reflexivity.
  - left. reflexivity.
  - right. exists false. unfold AnalyzerTest.f64_sub, SFsub.
    cbv zeta. rewrite Z.sub_diag. reflexivity.
Qed.

(** X13: [abs] never returns a value below zero and applying it twice
    changes nothing more; it returns not-a-number for not-a-number and
    leaves the negative zero as it is. *)
Theorem abs_not_negative (f : float64) :
  AnalyzerTest.f64_lt (AnalyzerTest.abs f) f64_zero = false ∧
  AnalyzerTest.abs (AnalyzerTest.abs f) = AnalyzerTest.abs f ∧
  AnalyzerTest.abs S754_nan = S754_nan ∧
  AnalyzerTest.abs (S754_zero true) = S754_zero true.
Proof.
  split; [|split; [|split; reflexivity]].
  - destruct f as [s|s| |s m e]; try destruct s; reflexivity.
  - destruct f as [s|s| |s m e]; try destruct s; reflexivity.
Qed.

(** X14: the revenue check of [TestAnalyzeData] reports nothing when the
    revenue computed or the revenue expected is not a number, and nothing
    when the two are the same value. *)
Theorem revenue_mismatch_blind_to_nan (x : float64) :
  AnalyzerTest.revenue_mismatch S754_nan x = false ∧
  AnalyzerTest.revenue_mismatch x S754_nan = false ∧
  AnalyzerTest.revenue_mismatch x x = false.
Proof.
  split; [reflexivity|]. split.
  - destruct x; reflexivity.
  - unfold AnalyzerTest.revenue_mismatch.
    destruct (f64_sub_diag x) as [-> | [s ->]]; [reflexivity | destruct s; reflexivity].
Qed.
